(** * auto_explain: the executor-hook state machine of contrib/auto_explain

    A shallow embedding of [contrib/auto_explain/auto_explain.c]: the four
    executor hooks ([explain_ExecutorStart], [explain_ExecutorRun],
    [explain_ExecutorFinish], [explain_ExecutorEnd]) and the load / unload
    callbacks ([_PG_init], [_PG_fini]), as functions over the file-static
    variables of the module and the executor's global hook slots.

    - C [int] is a [Z] with the two's-complement wrap-around written out
      ([wrap_int]; PostgreSQL is built with [-fwrapv]).
    - C [double] is an IEEE 754 binary64 value, [spec_float] with precision
      53 and exponent bound 1024; products, conversions and comparisons are
      the correctly rounded ones of [SpecFloat].
    - [ereport(ERROR)] / [PG_TRY] / [PG_CATCH] / [PG_RE_THROW] are an error
      monad over the backend state ([exec]).
    - Everything the module calls but does not define (the executor proper,
      the previously installed hooks, the EXPLAIN renderer, [random()],
      the instrumentation allocator) is an interface ([Instr], [Host]). *)

From Stdlib Require Import ZArith Bool Lia Ascii String.
From Stdlib Require Import Floats.SpecFloat.
From stdpp Require Import base list.

Local Open Scope Z_scope.

(** ** Machine numbers *)

Definition INT_MAX : Z := 2147483647.
Definition INT_MIN : Z := -2147483648.

Definition int_range (z : Z) : Prop := INT_MIN <= z <= INT_MAX.

(** Result of a 32-bit signed operation whose mathematical value is [z]. *)
Definition wrap_int (z : Z) : Z := (z + 2147483648) mod 4294967296 - 2147483648.

Definition double : Type := spec_float.

Definition double_mul : double -> double -> double := SFmul 53 1024.
Definition double_div : double -> double -> double := SFdiv 53 1024.

(** [x < y] and [x >= y] on doubles; both are false when an operand is NaN. *)
Definition double_lt (x y : double) : bool := SFltb x y.
Definition double_ge (x y : double) : bool := SFleb y x.

(** Conversion of an integer ([int], [long]) to [double], round to nearest
    even. *)
Definition double_of_Z (z : Z) : double := binary_normalize 53 1024 z 0 false.

(** The literal [1000.0]. *)
Definition double_1000 : double := Eval vm_compute in double_of_Z 1000.

(** 100 ms and 99.999 ms, the latter the double nearest to 99999/1000. *)
Definition double_100 : double := Eval vm_compute in double_of_Z 100.
Definition double_99_999 : double :=
  Eval vm_compute in double_div (double_of_Z 99999) (double_of_Z 1000).

(** ** Data of the module *)

(** [ExplainFormat], the values of [format_options]. *)
Inductive ExplainFormat : Type :=
| EXPLAIN_FORMAT_TEXT
| EXPLAIN_FORMAT_XML
| EXPLAIN_FORMAT_JSON
| EXPLAIN_FORMAT_YAML.

Definition ExplainFormat_eqb (f g : ExplainFormat) : bool :=
  match f, g with
  | EXPLAIN_FORMAT_TEXT, EXPLAIN_FORMAT_TEXT
  | EXPLAIN_FORMAT_XML, EXPLAIN_FORMAT_XML
  | EXPLAIN_FORMAT_JSON, EXPLAIN_FORMAT_JSON
  | EXPLAIN_FORMAT_YAML, EXPLAIN_FORMAT_YAML => true
  | _, _ => false
  end.

(** A value of one of the [Executor*_hook_type] function-pointer types: the
    address of one of this module's four handlers, or of some other
    observer's function.  A hook slot is an [option hook_fn], [None] being
    the [NULL] pointer. *)
Inductive hook_fn : Type :=
| explain_ExecutorStart_fn
| explain_ExecutorRun_fn
| explain_ExecutorFinish_fn
| explain_ExecutorEnd_fn
| extern_fn (addr : positive).

(** The error a failing call leaves for [PG_RE_THROW]. *)
Record ErrorData : Type := mkErrorData {
  sqlerrcode : Z;
  err_message : string
}.

(** One record written by [ereport(LOG, (errmsg("duration: %.3f ms  plan:\n%s",
    msec, es->str->data), errhidestmt(true)))]. *)
Record log_record : Type := mkLog {
  log_msec : double;
  log_text : list ascii;
  log_hide_stmt : bool
}.

(** The GUC variables, with the values the declarations give them. *)
Record guc : Type := mkGuc {
  auto_explain_log_min_duration : Z;
  auto_explain_log_analyze : bool;
  auto_explain_log_verbose : bool;
  auto_explain_log_buffers : bool;
  auto_explain_log_triggers : bool;
  auto_explain_log_timing : bool;
  auto_explain_log_format : ExplainFormat;
  auto_explain_log_nested_statements : bool;
  auto_explain_sample_rate : double
}.

Definition double_one : double := Eval vm_compute in double_of_Z 1.

Definition guc_boot : guc :=
  {| auto_explain_log_min_duration := -1;
     auto_explain_log_analyze := false;
     auto_explain_log_verbose := false;
     auto_explain_log_buffers := false;
     auto_explain_log_triggers := false;
     auto_explain_log_timing := true;
     auto_explain_log_format := EXPLAIN_FORMAT_TEXT;
     auto_explain_log_nested_statements := false;
     auto_explain_sample_rate := double_one |}.

(** The backend as the module sees it: its GUCs and file-static variables,
    the executor's four global hook slots, the number of values already
    drawn from [random()], and the server log. *)
Record backend : Type := mkBackend {
  settings : guc;
  nesting_level : Z;
  prev_ExecutorStart : option hook_fn;
  prev_ExecutorRun : option hook_fn;
  prev_ExecutorFinish : option hook_fn;
  prev_ExecutorEnd : option hook_fn;
  current_query_sampled : bool;
  ExecutorStart_hook : option hook_fn;
  ExecutorRun_hook : option hook_fn;
  ExecutorFinish_hook : option hook_fn;
  ExecutorEnd_hook : option hook_fn;
  random_calls : nat;
  server_log : list log_record
}.

(** The state of a backend before the library is loaded, the hook slots
    holding [hs], [hr], [hf], [he]. *)
Definition backend_boot (hs hr hf he : option hook_fn) : backend :=
  {| settings := guc_boot;
     nesting_level := 0;
     prev_ExecutorStart := None;
     prev_ExecutorRun := None;
     prev_ExecutorFinish := None;
     prev_ExecutorEnd := None;
     current_query_sampled := true;
     ExecutorStart_hook := hs;
     ExecutorRun_hook := hr;
     ExecutorFinish_hook := hf;
     ExecutorEnd_hook := he;
     random_calls := O;
     server_log := [] |}.

Definition set_settings (g : guc) (b : backend) : backend :=
  mkBackend g (nesting_level b)
    (prev_ExecutorStart b) (prev_ExecutorRun b) (prev_ExecutorFinish b)
    (prev_ExecutorEnd b) (current_query_sampled b)
    (ExecutorStart_hook b) (ExecutorRun_hook b) (ExecutorFinish_hook b)
    (ExecutorEnd_hook b) (random_calls b) (server_log b).

Definition set_nesting_level (n : Z) (b : backend) : backend :=
  mkBackend (settings b) n
    (prev_ExecutorStart b) (prev_ExecutorRun b) (prev_ExecutorFinish b)
    (prev_ExecutorEnd b) (current_query_sampled b)
    (ExecutorStart_hook b) (ExecutorRun_hook b) (ExecutorFinish_hook b)
    (ExecutorEnd_hook b) (random_calls b) (server_log b).

Definition set_current_query_sampled (v : bool) (b : backend) : backend :=
  mkBackend (settings b) (nesting_level b)
    (prev_ExecutorStart b) (prev_ExecutorRun b) (prev_ExecutorFinish b)
    (prev_ExecutorEnd b) v
    (ExecutorStart_hook b) (ExecutorRun_hook b) (ExecutorFinish_hook b)
    (ExecutorEnd_hook b) (random_calls b) (server_log b).

Definition set_random_calls (n : nat) (b : backend) : backend :=
  mkBackend (settings b) (nesting_level b)
    (prev_ExecutorStart b) (prev_ExecutorRun b) (prev_ExecutorFinish b)
    (prev_ExecutorEnd b) (current_query_sampled b)
    (ExecutorStart_hook b) (ExecutorRun_hook b) (ExecutorFinish_hook b)
    (ExecutorEnd_hook b) n (server_log b).

Definition set_server_log (l : list log_record) (b : backend) : backend :=
  mkBackend (settings b) (nesting_level b)
    (prev_ExecutorStart b) (prev_ExecutorRun b) (prev_ExecutorFinish b)
    (prev_ExecutorEnd b) (current_query_sampled b)
    (ExecutorStart_hook b) (ExecutorRun_hook b) (ExecutorFinish_hook b)
    (ExecutorEnd_hook b) (random_calls b) l.

(** The SET command on [auto_explain.log_min_duration]. *)
Definition set_log_min_duration (ms : Z) (b : backend) : backend :=
  let g := settings b in
  set_settings
    (mkGuc ms (auto_explain_log_analyze g) (auto_explain_log_verbose g)
       (auto_explain_log_buffers g) (auto_explain_log_triggers g)
       (auto_explain_log_timing g) (auto_explain_log_format g)
       (auto_explain_log_nested_statements g) (auto_explain_sample_rate g))
    b.

(** ** Calls that may fail *)

(** How a call ends: it returns, or it leaves through [ereport(ERROR)]
    (a [longjmp] to the innermost [PG_TRY]). *)
Inductive outcome (A : Type) : Type :=
| Normal (a : A)
| Raised (e : ErrorData).
Arguments Normal {A} a.
Arguments Raised {A} e.

Definition exec (A : Type) : Type := backend -> outcome A * backend.

Definition ret {A} (a : A) : exec A := fun b => (Normal a, b).

Definition bind {A B} (m : exec A) (k : A -> exec B) : exec B :=
  fun b =>
    match m b with
    | (Normal a, b') => k a b'
    | (Raised e, b') => (Raised e, b')
    end.

Definition PG_RE_THROW {A} (e : ErrorData) : exec A := fun b => (Raised e, b).

(** [PG_TRY(); { body } PG_CATCH(); { handler } PG_END_TRY();] *)
Definition PG_TRY {A} (body : exec A) (handler : ErrorData -> exec A) : exec A :=
  fun b =>
    match body b with
    | (Normal a, b') => (Normal a, b')
    | (Raised e, b') => handler e b'
    end.

Definition modify (f : backend -> backend) : exec unit :=
  fun b => (Normal tt, f b).

Definition gets {A} (f : backend -> A) : exec A := fun b => (Normal (f b), b).

Declare Scope exec_scope.
Delimit Scope exec_scope with exec.
Notation "'do' x <- m 'in' k" := (bind m (fun x => k))
  (at level 10, x name, m at level 100, k at level 200) : exec_scope.
Notation "'run' m 'in' k" := (bind m (fun _ => k))
  (at level 10, m at level 100, k at level 200) : exec_scope.
Local Open Scope exec_scope.

(** ** What the module is linked against *)

(** [executor/instrument.h] and [executor/executor.h]: the instrumentation
    record and the flag bits. *)
Class Instr : Type := {
  Instrumentation : Type;
  (** [instr->total], total run time in seconds *)
  total : Instrumentation -> double;
  InstrAlloc : Z -> Z -> Instrumentation;
  InstrEndLoop : Instrumentation -> Instrumentation;
  INSTRUMENT_TIMER : Z;
  INSTRUMENT_BUFFERS : Z;
  INSTRUMENT_ROWS : Z;
  INSTRUMENT_ALL : Z;
  EXEC_FLAG_EXPLAIN_ONLY : Z
}.

(** [QueryDesc], with the members the module reads or writes.  The hooks
    receive a pointer to it; here a hook takes the record and returns it as
    the call leaves it. *)
Record QueryDesc `{Instr} : Type := mkQueryDesc {
  sourceText : string;
  instrument_options : Z;
  totaltime : option Instrumentation
}.

Definition set_instrument_options `{Instr} (o : Z) (q : QueryDesc) : QueryDesc :=
  mkQueryDesc _ (sourceText q) o (totaltime q).

Definition set_totaltime `{Instr} (t : option Instrumentation) (q : QueryDesc)
  : QueryDesc :=
  mkQueryDesc _ (sourceText q) (instrument_options q) t.

Inductive ScanDirection : Type :=
| BackwardScanDirection
| NoMovementScanDirection
| ForwardScanDirection.

(** [ExplainState], with the members the module sets; [str] is the text of
    [es->str], [es->str->len] being its length. *)
Record ExplainState : Type := mkExplainState {
  str : list ascii;
  verbose : bool;
  analyze : bool;
  buffers : bool;
  timing : bool;
  summary : bool;
  format : ExplainFormat
}.

Definition set_str (t : list ascii) (es : ExplainState) : ExplainState :=
  mkExplainState t (verbose es) (analyze es) (buffers es) (timing es)
    (summary es) (format es).

(** The executor, the hooks of other observers, the EXPLAIN renderer, the GUC
    machinery and the C library. *)
Class Host `{Instr} : Type := {
  (** the largest value [random()] returns *)
  MAX_RANDOM_VALUE : Z;
  (** the value of the [n]-th call of [random()] in this backend *)
  random_value : nat -> Z;
  standard_ExecutorStart : QueryDesc -> Z -> exec QueryDesc;
  standard_ExecutorRun :
    QueryDesc -> ScanDirection -> Z -> bool -> exec QueryDesc;
  standard_ExecutorFinish : QueryDesc -> exec QueryDesc;
  standard_ExecutorEnd : QueryDesc -> exec QueryDesc;
  (** a call through a non-null hook pointer *)
  call_ExecutorStart : hook_fn -> QueryDesc -> Z -> exec QueryDesc;
  call_ExecutorRun :
    hook_fn -> QueryDesc -> ScanDirection -> Z -> bool -> exec QueryDesc;
  call_ExecutorFinish : hook_fn -> QueryDesc -> exec QueryDesc;
  call_ExecutorEnd : hook_fn -> QueryDesc -> exec QueryDesc;
  NewExplainState : ExplainState;
  (** the renderer: each call returns the text of [es->str] as it leaves it *)
  ExplainBeginOutput : ExplainState -> exec (list ascii);
  ExplainQueryText : ExplainState -> QueryDesc -> exec (list ascii);
  ExplainPrintPlan : ExplainState -> QueryDesc -> exec (list ascii);
  ExplainPrintTriggers : ExplainState -> QueryDesc -> exec (list ascii);
  ExplainEndOutput : ExplainState -> exec (list ascii);
  (** the values the nine [DefineCustom*Variable] calls leave in the GUC
      variables *)
  DefineCustomVariables : guc -> guc
}.

(** ** The module *)

Section AutoExplain.
Context `{host : Host}.

(** [#define auto_explain_enabled()] *)
Definition auto_explain_enabled (b : backend) : bool :=
  (0 <=? auto_explain_log_min_duration (settings b))
  && ((nesting_level b =? 0)
      || auto_explain_log_nested_statements (settings b)).

(** *** _PG_init, _PG_fini *)

(** Module load callback: the GUC variables are defined, then the hooks are
    installed.  ([EmitWarningsOnPlaceholders] only writes warnings.) *)
Definition _PG_init (b : backend) : backend :=
  {| settings := DefineCustomVariables (settings b);
     nesting_level := nesting_level b;
     prev_ExecutorStart := ExecutorStart_hook b;
     prev_ExecutorRun := ExecutorRun_hook b;
     prev_ExecutorFinish := ExecutorFinish_hook b;
     prev_ExecutorEnd := ExecutorEnd_hook b;
     current_query_sampled := current_query_sampled b;
     ExecutorStart_hook := Some explain_ExecutorStart_fn;
     ExecutorRun_hook := Some explain_ExecutorRun_fn;
     ExecutorFinish_hook := Some explain_ExecutorFinish_fn;
     ExecutorEnd_hook := Some explain_ExecutorEnd_fn;
     random_calls := random_calls b;
     server_log := server_log b |}.

(** Module unload callback. *)
Definition _PG_fini (b : backend) : backend :=
  {| settings := settings b;
     nesting_level := nesting_level b;
     prev_ExecutorStart := prev_ExecutorStart b;
     prev_ExecutorRun := prev_ExecutorRun b;
     prev_ExecutorFinish := prev_ExecutorFinish b;
     prev_ExecutorEnd := prev_ExecutorEnd b;
     current_query_sampled := current_query_sampled b;
     ExecutorStart_hook := prev_ExecutorStart b;
     ExecutorRun_hook := prev_ExecutorRun b;
     ExecutorFinish_hook := prev_ExecutorFinish b;
     ExecutorEnd_hook := prev_ExecutorEnd b;
     random_calls := random_calls b;
     server_log := server_log b |}.

(** *** The call each handler delegates to

    [if (prev_ExecutorX) prev_ExecutorX(...); else standard_ExecutorX(...);] *)

Definition next_ExecutorStart (queryDesc : QueryDesc) (eflags : Z)
  : exec QueryDesc :=
  fun b =>
    match prev_ExecutorStart b with
    | Some f => call_ExecutorStart f queryDesc eflags b
    | None => standard_ExecutorStart queryDesc eflags b
    end.

Definition next_ExecutorRun (queryDesc : QueryDesc) (direction : ScanDirection)
    (count : Z) (execute_once : bool) : exec QueryDesc :=
  fun b =>
    match prev_ExecutorRun b with
    | Some f => call_ExecutorRun f queryDesc direction count execute_once b
    | None => standard_ExecutorRun queryDesc direction count execute_once b
    end.

Definition next_ExecutorFinish (queryDesc : QueryDesc) : exec QueryDesc :=
  fun b =>
    match prev_ExecutorFinish b with
    | Some f => call_ExecutorFinish f queryDesc b
    | None => standard_ExecutorFinish queryDesc b
    end.

Definition next_ExecutorEnd (queryDesc : QueryDesc) : exec QueryDesc :=
  fun b =>
    match prev_ExecutorEnd b with
    | Some f => call_ExecutorEnd f queryDesc b
    | None => standard_ExecutorEnd queryDesc b
    end.

(** *** explain_ExecutorStart *)

(** [random()]: the next value of the backend's generator. *)
Definition random : exec Z :=
  fun b =>
    (Normal (random_value (random_calls b)),
     set_random_calls (S (random_calls b)) b).

(** [random() < auto_explain_sample_rate * MAX_RANDOM_VALUE] *)
Definition sample_test (r : Z) (rate : double) : bool :=
  double_lt (double_of_Z r) (double_mul rate (double_of_Z MAX_RANDOM_VALUE)).

(** The sampling decision, first statement of the handler. *)
Definition choose_sampled : exec unit :=
  do b <- gets id in
  if (0 <=? auto_explain_log_min_duration (settings b))
     && (nesting_level b =? 0)
  then
    do r <- random in
    modify (set_current_query_sampled
              (sample_test r (auto_explain_sample_rate (settings b))))
  else ret tt.

(** The instrumentation flags, set before the executor starts. *)
Definition enable_instrumentation (queryDesc : QueryDesc) (eflags : Z)
  : exec QueryDesc :=
  do b <- gets id in
  let g := settings b in
  if auto_explain_enabled b && current_query_sampled b then
    if auto_explain_log_analyze g
       && (Z.land eflags EXEC_FLAG_EXPLAIN_ONLY =? 0)
    then
      let q1 :=
        if auto_explain_log_timing g
        then set_instrument_options
               (Z.lor (instrument_options queryDesc) INSTRUMENT_TIMER) queryDesc
        else set_instrument_options
               (Z.lor (instrument_options queryDesc) INSTRUMENT_ROWS) queryDesc in
      if auto_explain_log_buffers g
      then ret (set_instrument_options
                  (Z.lor (instrument_options q1) INSTRUMENT_BUFFERS) q1)
      else ret q1
    else ret queryDesc
  else ret queryDesc.

(** The elapsed-time accumulator, set up after the executor has started. *)
Definition track_totaltime (queryDesc : QueryDesc) : exec QueryDesc :=
  do b <- gets id in
  if auto_explain_enabled b && current_query_sampled b then
    match totaltime queryDesc with
    | None => ret (set_totaltime (Some (InstrAlloc 1 INSTRUMENT_ALL)) queryDesc)
    | Some _ => ret queryDesc
    end
  else ret queryDesc.

Definition explain_ExecutorStart (queryDesc : QueryDesc) (eflags : Z)
  : exec QueryDesc :=
  run choose_sampled in
  do queryDesc <- enable_instrumentation queryDesc eflags in
  do queryDesc <- next_ExecutorStart queryDesc eflags in
  track_totaltime queryDesc.

(** *** explain_ExecutorRun, explain_ExecutorFinish *)

(** [nesting_level++] and [nesting_level--] *)
Definition nesting_level_incr : exec unit :=
  modify (fun b => set_nesting_level (wrap_int (nesting_level b + 1)) b).

Definition nesting_level_decr : exec unit :=
  modify (fun b => set_nesting_level (wrap_int (nesting_level b - 1)) b).

Definition explain_ExecutorRun (queryDesc : QueryDesc)
    (direction : ScanDirection) (count : Z) (execute_once : bool)
  : exec QueryDesc :=
  run nesting_level_incr in
  PG_TRY
    (do queryDesc <- next_ExecutorRun queryDesc direction count execute_once in
     run nesting_level_decr in
     ret queryDesc)
    (fun e =>
       run nesting_level_decr in
       PG_RE_THROW e).

Definition explain_ExecutorFinish (queryDesc : QueryDesc) : exec QueryDesc :=
  run nesting_level_incr in
  PG_TRY
    (do queryDesc <- next_ExecutorFinish queryDesc in
     run nesting_level_decr in
     ret queryDesc)
    (fun e =>
       run nesting_level_decr in
       PG_RE_THROW e).

(** *** explain_ExecutorEnd *)

(** The six assignments to the members of [es]. *)
Definition explain_options (g : guc) (queryDesc : QueryDesc)
    (es : ExplainState) : ExplainState :=
  let es_analyze :=
    negb (instrument_options queryDesc =? 0) && auto_explain_log_analyze g in
  {| str := str es;
     verbose := auto_explain_log_verbose g;
     analyze := es_analyze;
     buffers := es_analyze && auto_explain_log_buffers g;
     timing := es_analyze && auto_explain_log_timing g;
     summary := es_analyze;
     format := auto_explain_log_format g |}.

(** From [NewExplainState()] to [ExplainEndOutput(es)]. *)
Definition render_plan (queryDesc : QueryDesc) : exec ExplainState :=
  do g <- gets settings in
  let es := explain_options g queryDesc NewExplainState in
  do t <- ExplainBeginOutput es in
  let es := set_str t es in
  do t <- ExplainQueryText es queryDesc in
  let es := set_str t es in
  do t <- ExplainPrintPlan es queryDesc in
  let es := set_str t es in
  do g <- gets settings in
  do es <-
    (if analyze es && auto_explain_log_triggers g
     then do t <- ExplainPrintTriggers es queryDesc in ret (set_str t es)
     else ret es) in
  do t <- ExplainEndOutput es in
  ret (set_str t es).

Definition newline : ascii := "010"%char.

(** [str->len] *)
Definition len (data : list ascii) : Z := Z.of_nat (length data).

(** [data[i]] read and written, for [0 <= i < len]; an access outside the
    text has no value. *)
Definition load_char (data : list ascii) (i : Z) : option ascii :=
  if 0 <=? i then data !! Z.to_nat i else None.

Definition store_char (data : list ascii) (i : Z) (c : ascii)
  : option (list ascii) :=
  if (0 <=? i) && (i <? len data)
  then Some (<[Z.to_nat i := c]> data)
  else None.

(** Remove last line break:
    [if (len > 0 && data[len - 1] == '\n') data[--len] = '\0';] *)
Definition remove_last_line_break (data : list ascii) : list ascii :=
  if (0 <? len data)
     && match load_char data (len data - 1) with
        | Some c => Ascii.eqb c newline
        | None => false
        end
  then take (Z.to_nat (len data - 1)) data
  else data.

(** Fix JSON to output an object:
    [data[0] = '{'; data[len - 1] = '}';] *)
Definition fix_json (data : list ascii) : option (list ascii) :=
  match store_char data 0 "{"%char with
  | Some data1 => store_char data1 (len data1 - 1) "}"%char
  | None => None
  end.

(** [ereport(LOG, (errmsg(...), errhidestmt(true)))] *)
Definition ereport_LOG (msec : double) (text : list ascii) (b : backend)
  : backend :=
  set_server_log (server_log b ++ [mkLog msec text true]) b.

(** The two fix-ups of the rendered text, the second for
    [auto_explain_log_format == EXPLAIN_FORMAT_JSON] only.  [None] when a
    store falls outside the text. *)
Definition fix_up_text (fmt : ExplainFormat) (data : list ascii)
  : option (list ascii) :=
  let data := remove_last_line_break data in
  if ExplainFormat_eqb fmt EXPLAIN_FORMAT_JSON
  then fix_json data
  else Some data.

(** The body of [if (msec >= auto_explain_log_min_duration)]: render, fix up
    the text and log it. *)
Definition log_plan (queryDesc : QueryDesc) (msec : double) (b : backend)
  : option (outcome unit * backend) :=
  match render_plan queryDesc b with
  | (Normal es, b1) =>
      match fix_up_text (auto_explain_log_format (settings b1)) (str es) with
      | Some text => Some (Normal tt, ereport_LOG msec text b1)
      | None => None
      end
  | (Raised e, b1) => Some (Raised e, b1)
  end.

(** The body of the outer [if]: close the measurement and log the plan when
    the statement ran for long enough. *)
Definition report_if_slow (queryDesc : QueryDesc) (t : Instrumentation)
    (b : backend) : option (outcome QueryDesc * backend) :=
  let queryDesc := set_totaltime (Some (InstrEndLoop t)) queryDesc in
  let msec := double_mul (total (InstrEndLoop t)) double_1000 in
  if double_ge msec (double_of_Z (auto_explain_log_min_duration (settings b)))
  then
    match log_plan queryDesc msec b with
    | Some (Normal _, b1) => Some (next_ExecutorEnd queryDesc b1)
    | Some (Raised e, b1) => Some (Raised e, b1)
    | None => None
    end
  else Some (next_ExecutorEnd queryDesc b).

Definition explain_ExecutorEnd (queryDesc : QueryDesc) (b : backend)
  : option (outcome QueryDesc * backend) :=
  match totaltime queryDesc with
  | Some t =>
      if auto_explain_enabled b && current_query_sampled b
      then report_if_slow queryDesc t b
      else Some (next_ExecutorEnd queryDesc b)
  | None => Some (next_ExecutorEnd queryDesc b)
  end.

(** *** Derived views, used to state the properties *)

(** The backend and the [QueryDesc] with which [explain_ExecutorStart]
    delegates: after the sampling decision and the instrumentation flags. *)
Definition delegated_backend (b : backend) : backend := snd (choose_sampled b).

Definition delegated_queryDesc (queryDesc : QueryDesc) (eflags : Z)
    (b : backend) : QueryDesc :=
  match fst (enable_instrumentation queryDesc eflags (delegated_backend b)) with
  | Normal q => q
  | Raised _ => queryDesc
  end.

End AutoExplain.

(** The four global hook slots, and the four values saved at load time. *)
Definition hook_slots (b : backend) :=
  (ExecutorStart_hook b, ExecutorRun_hook b, ExecutorFinish_hook b,
   ExecutorEnd_hook b).

Definition saved_hooks (b : backend) :=
  (prev_ExecutorStart b, prev_ExecutorRun b, prev_ExecutorFinish b,
   prev_ExecutorEnd b).

(** ** A concrete host

    The constants of PostgreSQL's headers, and a small executor to run the
    handlers on: [extern_fn 1] is an observer that allocates
    [queryDesc->totaltime] in its Start hook and otherwise passes the call
    on, every other foreign pointer is a function that fails. *)

#[local] Instance pg_instr : Instr :=
  {| Instrumentation := double;
     total := fun t => t;
     InstrAlloc := fun _ _ => S754_zero false;
     InstrEndLoop := fun t => t;
     INSTRUMENT_TIMER := 1;
     INSTRUMENT_BUFFERS := 2;
     INSTRUMENT_ROWS := 4;
     INSTRUMENT_ALL := INT_MAX;
     EXEC_FLAG_EXPLAIN_ONLY := 1 |}.

Definition demo_error : ErrorData :=
  {| sqlerrcode := 33816706; err_message := "division by zero" |}.

Definition demo_call {A} (f : hook_fn) (res : A) : exec A :=
  match f with
  | extern_fn 1 => ret res
  | _ => PG_RE_THROW demo_error
  end.

Definition demo_text (f : ExplainFormat) (plain json : string) : list ascii :=
  list_ascii_of_string
    (if ExplainFormat_eqb f EXPLAIN_FORMAT_JSON then json else plain).

(** [demo_host r]: a host whose [random()] always returns [r]. *)
Definition demo_host (r : Z) : Host :=
  {| MAX_RANDOM_VALUE := 2147483647;
     random_value := fun _ => r;
     standard_ExecutorStart := fun q _ => ret q;
     standard_ExecutorRun := fun q _ _ _ => ret q;
     standard_ExecutorFinish := fun q => ret q;
     standard_ExecutorEnd := fun q => ret q;
     call_ExecutorStart := fun f q _ =>
       demo_call f
         (match totaltime q with
          | None => set_totaltime (Some (InstrAlloc 1 INSTRUMENT_ALL)) q
          | Some _ => q
          end);
     call_ExecutorRun := fun f q _ _ _ => demo_call f q;
     call_ExecutorFinish := fun f q => demo_call f q;
     call_ExecutorEnd := fun f q => demo_call f q;
     NewExplainState :=
       mkExplainState [] false false false false false EXPLAIN_FORMAT_TEXT;
     ExplainBeginOutput := fun es =>
       ret (str es ++ demo_text (format es) "" "[");
     ExplainQueryText := fun es q =>
       ret (str es ++ demo_text (format es) "Query Text: " "{Query Text: "
              ++ list_ascii_of_string (sourceText q)
              ++ [newline]);
     ExplainPrintPlan := fun es q =>
       ret (str es ++ demo_text (format es) "Result" "Plan: Result}"
              ++ (if ExplainFormat_eqb (format es) EXPLAIN_FORMAT_JSON
                  then [] else [newline]));
     ExplainPrintTriggers := fun es q => ret (str es);
     ExplainEndOutput := fun es =>
       ret (str es
              ++ (if ExplainFormat_eqb (format es) EXPLAIN_FORMAT_JSON
                  then ["]"%char; newline] else []));
     DefineCustomVariables := fun g => g |}.

Definition demo_query : QueryDesc :=
  {| sourceText := "select 1"; instrument_options := 0; totaltime := None |}.

(** The handlers linked against [demo_host r]. *)
Definition demo_PG_init (r : Z) : backend -> backend :=
  @_PG_init pg_instr (demo_host r).
Definition demo_ExecutorStart (r : Z) : QueryDesc -> Z -> exec QueryDesc :=
  @explain_ExecutorStart pg_instr (demo_host r).
Definition demo_ExecutorRun (r : Z)
  : QueryDesc -> ScanDirection -> Z -> bool -> exec QueryDesc :=
  @explain_ExecutorRun pg_instr (demo_host r).
Definition demo_ExecutorFinish (r : Z) : QueryDesc -> exec QueryDesc :=
  @explain_ExecutorFinish pg_instr (demo_host r).
Definition demo_ExecutorEnd (r : Z)
  : QueryDesc -> backend -> option (outcome QueryDesc * backend) :=
  @explain_ExecutorEnd pg_instr (demo_host r).
Definition demo_render_plan (r : Z) : QueryDesc -> exec ExplainState :=
  @render_plan pg_instr (demo_host r).

Definition demo_guc (min_duration : Z) (log_analyze log_nested : bool)
    (fmt : ExplainFormat) (rate : double) : guc :=
  {| auto_explain_log_min_duration := min_duration;
     auto_explain_log_analyze := log_analyze;
     auto_explain_log_verbose := false;
     auto_explain_log_buffers := true;
     auto_explain_log_triggers := true;
     auto_explain_log_timing := true;
     auto_explain_log_format := fmt;
     auto_explain_log_nested_statements := log_nested;
     auto_explain_sample_rate := rate |}.

(** A backend with the library loaded over the previous Start hook
    [prev_start]. *)
Definition demo_backend (g : guc) (level : Z) (sampled : bool)
    (prev_start : option hook_fn) : backend :=
  {| settings := g;
     nesting_level := level;
     prev_ExecutorStart := prev_start;
     prev_ExecutorRun := None;
     prev_ExecutorFinish := None;
     prev_ExecutorEnd := None;
     current_query_sampled := sampled;
     ExecutorStart_hook := Some explain_ExecutorStart_fn;
     ExecutorRun_hook := Some explain_ExecutorRun_fn;
     ExecutorFinish_hook := Some explain_ExecutorFinish_fn;
     ExecutorEnd_hook := Some explain_ExecutorEnd_fn;
     random_calls := O;
     server_log := [] |}.

(** A statement that has run for [seconds]. *)
Definition timed_query (seconds : double) : QueryDesc :=
  {| sourceText := "select 1"; instrument_options := 1;
     totaltime := Some seconds |}.

(** 0.1 s and 0.099999 s. *)
Definition seconds_0_1 : double :=
  Eval vm_compute in double_div double_100 double_1000.
Definition seconds_0_099999 : double :=
  Eval vm_compute in double_div double_99_999 double_1000.

(** A backend at the top of the counter's range, whose previous Run hook
    fails and whose previous Finish hook returns. *)
Definition depth_demo_backend : backend :=
  {| settings := guc_boot;
     nesting_level := INT_MAX;
     prev_ExecutorStart := None;
     prev_ExecutorRun := Some (extern_fn 2);
     prev_ExecutorFinish := Some (extern_fn 1);
     prev_ExecutorEnd := None;
     current_query_sampled := true;
     ExecutorStart_hook := Some explain_ExecutorStart_fn;
     ExecutorRun_hook := Some explain_ExecutorRun_fn;
     ExecutorFinish_hook := Some explain_ExecutorFinish_fn;
     ExecutorEnd_hook := Some explain_ExecutorEnd_fn;
     random_calls := O;
     server_log := [] |}.


(** A backend just after the library is loaded over the observer
    [extern_fn 1], with the settings of the declarations: logging is
    disabled. *)
Definition loaded_backend : backend :=
  demo_PG_init 5 (backend_boot (Some (extern_fn 1)) None None None).

(** A backend just after the library is loaded over empty hook slots. *)
Definition plain_loaded_backend : backend :=
  demo_PG_init 5 (backend_boot None None None None).

(** [demo_query] as the Start hook of [extern_fn 1] leaves it. *)
Definition started_query : QueryDesc :=
  @set_totaltime pg_instr (Some (S754_zero false)) demo_query.

(** ** Further views and hosts *)

(** A double that is neither NaN nor negative (a zero of either sign
    counts). *)
Definition double_nonneg (x : double) : bool :=
  match x with
  | S754_zero _ => true
  | S754_finite s _ _ | S754_infinity s => negb s
  | S754_nan => false
  end.

(** [h] with another EXPLAIN renderer. *)
Definition with_renderer `{Instr} (h : Host)
    (begin_output : ExplainState -> exec (list ascii))
    (query_text print_plan print_triggers
       : ExplainState -> QueryDesc -> exec (list ascii))
    (end_output : ExplainState -> exec (list ascii)) : Host :=
  {| MAX_RANDOM_VALUE := @MAX_RANDOM_VALUE _ h;
     random_value := @random_value _ h;
     standard_ExecutorStart := @standard_ExecutorStart _ h;
     standard_ExecutorRun := @standard_ExecutorRun _ h;
     standard_ExecutorFinish := @standard_ExecutorFinish _ h;
     standard_ExecutorEnd := @standard_ExecutorEnd _ h;
     call_ExecutorStart := @call_ExecutorStart _ h;
     call_ExecutorRun := @call_ExecutorRun _ h;
     call_ExecutorFinish := @call_ExecutorFinish _ h;
     call_ExecutorEnd := @call_ExecutorEnd _ h;
     NewExplainState := @NewExplainState _ h;
     ExplainBeginOutput := begin_output;
     ExplainQueryText := query_text;
     ExplainPrintPlan := print_plan;
     ExplainPrintTriggers := print_triggers;
     ExplainEndOutput := end_output;
     DefineCustomVariables := @DefineCustomVariables _ h |}.

(** [h] with another [ExplainPrintTriggers]. *)
Definition with_ExplainPrintTriggers `{Instr} (h : Host)
    (print_triggers : ExplainState -> QueryDesc -> exec (list ascii)) : Host :=
  with_renderer h (@ExplainBeginOutput _ h) (@ExplainQueryText _ h)
    (@ExplainPrintPlan _ h) print_triggers (@ExplainEndOutput _ h).

(** The concrete host with a renderer that writes nothing, and with one
    whose [ExplainPrintPlan] fails. *)
Definition silent_host : Host :=
  with_renderer (demo_host 5)
    (fun es => ret (str es)) (fun es _ => ret (str es))
    (fun es _ => ret (str es)) (fun es _ => ret (str es))
    (fun es => ret (str es)).

Definition failing_render_host : Host :=
  with_renderer (demo_host 5)
    (@ExplainBeginOutput _ (demo_host 5)) (@ExplainQueryText _ (demo_host 5))
    (fun _ _ => PG_RE_THROW demo_error)
    (@ExplainPrintTriggers _ (demo_host 5)) (@ExplainEndOutput _ (demo_host 5)).

(** The concrete host with a trigger printer that appends a line. *)
Definition trigger_host : Host :=
  with_ExplainPrintTriggers (demo_host 5)
    (fun es _ => ret (str es ++ list_ascii_of_string "Trigger t: calls=1"
                        ++ [newline])).

(** An enabled backend with [log_analyze] on, at top level. *)
Definition analyze_backend : backend :=
  demo_backend (demo_guc 0 true false EXPLAIN_FORMAT_TEXT double_one)
    0 true None.

(** The rate 0.5. *)
Definition half_rate : double :=
  Eval vm_compute in double_div double_one (double_of_Z 2).

(** * Properties *)

(** ** Arithmetic of the depth counter *)

Lemma wrap_int_id (z : Z) : int_range z -> wrap_int z = z.
Proof.
  unfold int_range, INT_MIN, INT_MAX, wrap_int. intros Hz.
  rewrite Z.mod_small by lia. lia.
Qed.

Lemma wrap_int_range (z : Z) : int_range (wrap_int z).
Proof.
  unfold int_range, INT_MIN, INT_MAX, wrap_int.
  pose proof (Z.mod_pos_bound (z + 2147483648) 4294967296 eq_refl). lia.
Qed.

(** Incrementing then decrementing a 32-bit counter gives it back, at the
    ends of the range too. *)
Lemma wrap_int_incr_decr (z : Z) :
  int_range z -> wrap_int (wrap_int (z + 1) - 1) = z.
Proof.
  unfold int_range, INT_MIN, INT_MAX. intros Hz.
  destruct (Z.eq_dec z 2147483647) as [-> | Hne]; [reflexivity|].
  rewrite (wrap_int_id (z + 1)) by (unfold int_range, INT_MIN, INT_MAX; lia).
  replace (z + 1 - 1) with z by lia.
  apply wrap_int_id. unfold int_range, INT_MIN, INT_MAX. lia.
Qed.

(** ** The depth counter around Run and Finish *)

Section DepthTracker.
Context `{host : Host}.

(** What the [PG_TRY] block of Run and Finish does with a delegated call
    [next]: the counter is decremented on both exits, the outcome of [next]
    is passed on as it is. *)
Lemma bracket_depth {A} (next : exec A) (b : backend) :
  (run nesting_level_incr in
   PG_TRY (do r <- next in run nesting_level_decr in ret r)
          (fun e => run nesting_level_decr in PG_RE_THROW e)) b
  = let b1 := set_nesting_level (wrap_int (nesting_level b + 1)) b in
    (fst (next b1),
     set_nesting_level (wrap_int (nesting_level (snd (next b1)) - 1))
       (snd (next b1))).
Proof.
  unfold bind, PG_TRY, nesting_level_incr, nesting_level_decr, modify, ret,
    PG_RE_THROW.
  cbn. destruct (next _) as [[r | e] b2]; reflexivity.
Qed.

(** C1. Every Run and every Finish call leaves [nesting_level] as it found
    it, provided the call it delegates to does (which holds of the executor
    running balanced nested statements), whether that call returns or fails;
    the outcome of the delegated call, a result or an error, is the outcome
    of the handler, the error being the same [ErrorData]. *)
Theorem explain_Executor_Run_Finish_depth
    (queryDesc : QueryDesc) (direction : ScanDirection) (count : Z)
    (execute_once : bool) (b : backend) :
  int_range (nesting_level b) ->
  let b1 := set_nesting_level (wrap_int (nesting_level b + 1)) b in
  let run_next := next_ExecutorRun queryDesc direction count execute_once b1 in
  let finish_next := next_ExecutorFinish queryDesc b1 in
  (nesting_level (snd run_next) = nesting_level b1 ->
   let r := explain_ExecutorRun queryDesc direction count execute_once b in
   nesting_level (snd r) = nesting_level b
   /\ fst r = fst run_next
   /\ snd r = set_nesting_level (nesting_level b) (snd run_next)
   /\ forall e, fst run_next = Raised e -> fst r = Raised e)
  /\
  (nesting_level (snd finish_next) = nesting_level b1 ->
   let r := explain_ExecutorFinish queryDesc b in
   nesting_level (snd r) = nesting_level b
   /\ fst r = fst finish_next
   /\ snd r = set_nesting_level (nesting_level b) (snd finish_next)
   /\ forall e, fst finish_next = Raised e -> fst r = Raised e).
Proof.
  intros Hrange b1 run_next finish_next.
  assert (Hback : wrap_int (nesting_level b1 - 1) = nesting_level b)
    by (apply wrap_int_incr_decr; exact Hrange).
  split; intros Hkeep r; subst r;
    [unfold explain_ExecutorRun | unfold explain_ExecutorFinish];
    rewrite bracket_depth; cbn zeta; fold b1;
    [fold run_next | fold finish_next];
    rewrite Hkeep, Hback; cbn [fst snd];
    repeat split; auto.
Qed.

End DepthTracker.


(** ** Loading and unloading *)

Section HookChain.
Context `{host : Host}.

(** C9. [_PG_init] saves the four hook slots as it finds them, whatever they
    hold, and installs the module's handlers; [_PG_fini] puts the saved
    values back, so unloading after loading restores the four slots, also
    from any later state in which the saved values are still those of the
    load. *)
Theorem PG_init_fini_round_trip (b : backend) :
  saved_hooks (_PG_init b) = hook_slots b
  /\ hook_slots (_PG_init b)
     = (Some explain_ExecutorStart_fn, Some explain_ExecutorRun_fn,
        Some explain_ExecutorFinish_fn, Some explain_ExecutorEnd_fn)
  /\ hook_slots (_PG_fini (_PG_init b)) = hook_slots b
  /\ forall b' : backend,
       saved_hooks b' = saved_hooks (_PG_init b) ->
       hook_slots (_PG_fini b') = hook_slots b.
Proof.
  repeat split.
  intros b' Hsaved. exact Hsaved.
Qed.

End HookChain.

(** ** Doubles *)

(** Rounding keeps the sign it is given. *)
Lemma binary_round_aux_sign (sx : bool) (mx ex : Z) (lx : location) :
  match binary_round_aux 53 1024 sx mx ex lx with
  | S754_zero s | S754_infinity s | S754_finite s _ _ => s = sx
  | S754_nan => True
  end.
Proof.
  unfold binary_round_aux.
  destruct (shr_fexp 53 1024 mx ex lx) as [mrs' e'].
  destruct (shr_fexp 53 1024 _ e' loc_Exact) as [mrs'' e''].
  destruct (shr_m mrs''); [reflexivity | | exact I].
  destruct (Z.leb e'' (1024 - 53)); reflexivity.
Qed.

Lemma double_of_Z_sign (r : Z) :
  0 <= r ->
  match double_of_Z r with
  | S754_zero s | S754_infinity s | S754_finite s _ _ => s = false
  | S754_nan => True
  end.
Proof.
  intros Hr. destruct r as [| p | p]; [reflexivity | | lia].
  unfold double_of_Z, binary_normalize, binary_round.
  destruct (shl_align _ _ _) as [mz ez].
  apply binary_round_aux_sign.
Qed.

(** No integer [r >= 0] converts to a double below a zero, or below the
    product of a zero with anything. *)
Lemma double_of_Z_not_lt_zero_mul (r : Z) (s : bool) (x : double) :
  0 <= r ->
  double_lt (double_of_Z r) (double_mul (S754_zero s) x) = false.
Proof.
  intros Hr. pose proof (double_of_Z_sign r Hr) as Hs.
  unfold double_lt, SFltb, double_mul.
  destruct x as [sx | sx | | sx mx ex]; cbn [SFmul];
    destruct (double_of_Z r) as [sr | sr | | sr mr er]; try subst sr;
    reflexivity.
Qed.


(** ** Integers below 2^53 convert exactly *)

Lemma digits2_pos_size (p : positive) : digits2_pos p = Pos.size p.
Proof. induction p as [p IH | p IH |]; cbn; rewrite ?IH; reflexivity. Qed.

Lemma digits2_pos_iter_xO (p k : positive) :
  digits2_pos (Pos.iter xO p k) = (digits2_pos p + k)%positive.
Proof.
  induction k as [| k IH] using Pos.peano_ind.
  - cbn. lia.
  - rewrite Pos.iter_succ. cbn [digits2_pos]. rewrite IH. lia.
Qed.

(** A 53-bit mantissa with an exponent in range is its own rounding. *)
Lemma binary_round_aux_canonical (m : positive) (e : Z) :
  digits2_pos m = 53%positive ->
  -1074 <= e <= 971 ->
  binary_round_aux 53 1024 false (Zpos m) e loc_Exact = S754_finite false m e.
Proof.
  intros Hm He.
  assert (Hshift : fexp 53 1024 (Zdigits2 (Zpos m) + e) - e = 0).
  { cbn [Zdigits2]. rewrite Hm. unfold fexp, emin. lia. }
  unfold binary_round_aux, shr_fexp.
  cbn [shr_record_of_loc]. rewrite Hshift. cbn [shr].
  cbn [shr_m loc_of_shr_record round_nearest_even shr_record_of_loc].
  rewrite Hshift. cbn [shr shr_m].
  destruct (Z.leb_spec e (1024 - 53)); [reflexivity | lia].
Qed.

(** A positive integer of fewer than 53 bits converts to itself, shifted
    left to 53 bits. *)
Lemma double_of_Z_pos (p : positive) :
  Zpos (digits2_pos p) < 53 ->
  exists k : positive,
    Zneg k = Zpos (digits2_pos p) - 53
    /\ double_of_Z (Zpos p) = S754_finite false (Pos.iter xO p k) (Zneg k).
Proof.
  intros Hd.
  assert (Hfexp : fexp 53 1024 (Zpos (digits2_pos p) + 0)
                  = Zpos (digits2_pos p) - 53).
  { unfold fexp, emin. lia. }
  unfold double_of_Z, binary_normalize, binary_round, shl_align.
  rewrite Hfexp.
  replace (Zpos (digits2_pos p) - 53 - 0) with (Zpos (digits2_pos p) - 53)
    by lia.
  destruct (Zpos (digits2_pos p) - 53) as [| k | k] eqn:Hk; [lia | lia |].
  exists k. split; [reflexivity |].
  apply binary_round_aux_canonical; [| lia].
  rewrite digits2_pos_iter_xO. lia.
Qed.

Lemma digits2_pos_bound (p : positive) (n : Z) :
  0 <= n -> Zpos p < 2 ^ n -> Zpos (digits2_pos p) <= n.
Proof.
  intros Hn Hp. rewrite digits2_pos_size.
  destruct (Z.le_gt_cases (Zpos (Pos.size p)) n) as [Hle | Hgt]; [exact Hle |].
  exfalso.
  pose proof (Pos.size_le p) as Hsize.
  apply Pos2Z.pos_le_pos in Hsize. rewrite Pos2Z.inj_pow in Hsize.
  change (Z.pos 2) with 2 in Hsize.
  change (Z.pos p~0) with (2 * Z.pos p) in Hsize.
  assert (Hpow : 2 ^ Z.succ n <= 2 ^ Zpos (Pos.size p))
    by (apply Z.pow_le_mono_r; lia).
  rewrite Z.pow_succ_r in Hpow by exact Hn. lia.
Qed.


Lemma compare_iter_xO (p q k : positive) :
  Pos.compare (Pos.iter xO p k) (Pos.iter xO q k) = Pos.compare p q.
Proof.
  induction k as [| k IH] using Pos.peano_ind.
  - reflexivity.
  - rewrite !Pos.iter_succ. exact IH.
Qed.

(** [x < y] on two positive finite doubles. *)
Lemma double_lt_finite (m1 m2 : positive) (e1 e2 : Z) :
  double_lt (S754_finite false m1 e1) (S754_finite false m2 e2)
  = match Z.compare e1 e2 with
    | Lt => true
    | Gt => false
    | Eq => match Pos.compare m1 m2 with Lt => true | _ => false end
    end.
Proof.
  unfold double_lt, SFltb, SFcompare, Pos.compare.
  destruct (Z.compare e1 e2); reflexivity.
Qed.

(** ** The sampling test at rate 1.0 *)

Section FullRate.
Context `{host : Host}.

(** The test [random() < 1.0 * MAX_RANDOM_VALUE] for a value [r] that
    [random()] can return: it succeeds for every value but the largest. *)
Lemma sample_test_one (r : Z) :
  MAX_RANDOM_VALUE = 2147483647 ->
  0 <= r <= MAX_RANDOM_VALUE ->
  sample_test r double_one = (r <? MAX_RANDOM_VALUE).
Proof.
  intros Hmax Hr. unfold sample_test. rewrite Hmax in *.
  assert (HM : double_mul double_one (double_of_Z 2147483647)
               = S754_finite false (Pos.iter xO 2147483647%positive 22) (-22))
    by (vm_compute; reflexivity).
  rewrite HM. clear HM.
  destruct r as [| p | p]; [reflexivity | | lia].
  assert (Hd : Zpos (digits2_pos p) <= 31).
  { apply digits2_pos_bound; [lia |]. change (2 ^ 31) with 2147483648. lia. }
  destruct (double_of_Z_pos p ltac:(lia)) as (k & Hk & ->).
  rewrite double_lt_finite.
  destruct (Z.compare_spec (Zneg k) (-22)) as [Heq | Hlt | Hgt].
  - injection Heq as ->.
    rewrite compare_iter_xO.
    unfold Z.ltb. cbn [Z.compare]. destruct (Pos.compare p 2147483647); reflexivity.
  - assert (Hp : Zpos p < 2147483647).
    { destruct (Z.eq_dec (Zpos p) 2147483647) as [Heq | Hne]; [| lia].
      injection Heq as ->. vm_compute in Hk. lia. }
    symmetry. apply Z.ltb_lt. exact Hp.
  - lia.
Qed.

End FullRate.

(** ** The Start handler *)

Section StartHandler.
Context `{host : Host}.

Lemma choose_sampled_top (b : backend) :
  0 <= auto_explain_log_min_duration (settings b) ->
  nesting_level b = 0 ->
  choose_sampled b
  = (Normal tt,
     set_current_query_sampled
       (sample_test (random_value (random_calls b))
          (auto_explain_sample_rate (settings b)))
       (set_random_calls (S (random_calls b)) b)).
Proof.
  intros Hmin Hlvl. unfold choose_sampled, bind, gets, id.
  apply Z.leb_le in Hmin. rewrite Hmin, Hlvl. reflexivity.
Qed.

Lemma choose_sampled_skip (b : backend) :
  ~ (0 <= auto_explain_log_min_duration (settings b) /\ nesting_level b = 0) ->
  choose_sampled b = (Normal tt, b).
Proof.
  intros Hno. unfold choose_sampled, bind, gets, id.
  destruct (Z.leb_spec 0 (auto_explain_log_min_duration (settings b)));
    destruct (Z.eqb_spec (nesting_level b) 0); cbn; try reflexivity.
  exfalso. apply Hno. split; assumption.
Qed.

Lemma enable_instrumentation_backend (queryDesc : QueryDesc) (eflags : Z)
    (b : backend) :
  exists q, enable_instrumentation queryDesc eflags b = (Normal q, b)
            /\ (auto_explain_enabled b && current_query_sampled b = false ->
                q = queryDesc).
Proof.
  unfold enable_instrumentation, bind, gets, id, ret.
  destruct (auto_explain_enabled b && current_query_sampled b).
  - destruct (_ && _); [destruct (auto_explain_log_buffers _) |];
      eexists; (split; [reflexivity | discriminate]).
  - eexists. split; reflexivity.
Qed.

Lemma track_totaltime_backend (queryDesc : QueryDesc) (b : backend) :
  exists q, track_totaltime queryDesc b = (Normal q, b)
            /\ (auto_explain_enabled b && current_query_sampled b = false ->
                q = queryDesc).
Proof.
  unfold track_totaltime, bind, gets, id, ret.
  destruct (auto_explain_enabled b && current_query_sampled b).
  - destruct (totaltime queryDesc); eexists; (split; [reflexivity | discriminate]).
  - eexists. split; reflexivity.
Qed.

(** The handler runs the delegated call from [delegated_backend b] on
    [delegated_queryDesc], then sets up the accumulator. *)
Lemma explain_ExecutorStart_delegates (queryDesc : QueryDesc) (eflags : Z)
    (b : backend) :
  explain_ExecutorStart queryDesc eflags b
  = bind (next_ExecutorStart (delegated_queryDesc queryDesc eflags b) eflags)
      track_totaltime (delegated_backend b).
Proof.
  unfold explain_ExecutorStart, delegated_queryDesc, delegated_backend.
  unfold bind at 1.
  assert (Hc : exists b0, choose_sampled b = (Normal tt, b0)).
  { unfold choose_sampled, bind, gets, id, random, modify, ret.
    destruct (_ && _); eexists; reflexivity. }
  destruct Hc as [b0 Hc]. rewrite Hc. cbn [snd].
  unfold bind at 1.
  destruct (enable_instrumentation_backend queryDesc eflags b0) as (q & Hq & _).
  rewrite Hq. reflexivity.
Qed.

(** The backend the handler leaves is the one the delegated call leaves. *)
Lemma explain_ExecutorStart_backend (queryDesc : QueryDesc) (eflags : Z)
    (b : backend) :
  snd (explain_ExecutorStart queryDesc eflags b)
  = snd (next_ExecutorStart (delegated_queryDesc queryDesc eflags b) eflags
           (delegated_backend b)).
Proof.
  rewrite explain_ExecutorStart_delegates. unfold bind.
  destruct (next_ExecutorStart _ _ _) as [[q | e] b1]; [| reflexivity].
  destruct (track_totaltime_backend q b1) as (q' & Hq & _).
  rewrite Hq. reflexivity.
Qed.

(** C3. With [sample_rate] 0.0 a top-level Start with logging enabled
    clears the sampled flag whatever non-negative value [random()] returns,
    and the flag is still clear when the handler returns if the delegated
    call does not touch it. *)
Theorem sample_rate_zero_never_sampled
    (queryDesc : QueryDesc) (eflags : Z) (b : backend) (s : bool) :
  auto_explain_sample_rate (settings b) = S754_zero s ->
  0 <= auto_explain_log_min_duration (settings b) ->
  nesting_level b = 0 ->
  0 <= random_value (random_calls b) ->
  current_query_sampled (delegated_backend b) = false
  /\ delegated_queryDesc queryDesc eflags b = queryDesc
  /\ (current_query_sampled
        (snd (next_ExecutorStart queryDesc eflags (delegated_backend b)))
      = current_query_sampled (delegated_backend b) ->
      current_query_sampled (snd (explain_ExecutorStart queryDesc eflags b))
      = false).
Proof.
  intros Hrate Hmin Hlvl Hr.
  assert (Hflag : current_query_sampled (delegated_backend b) = false).
  { unfold delegated_backend. rewrite (choose_sampled_top b Hmin Hlvl).
    cbn. unfold sample_test. rewrite Hrate.
    apply double_of_Z_not_lt_zero_mul. exact Hr. }
  assert (Hq : delegated_queryDesc queryDesc eflags b = queryDesc).
  { unfold delegated_queryDesc.
    destruct (enable_instrumentation_backend queryDesc eflags
                (delegated_backend b)) as (q & Hq & Hsame).
    rewrite Hq. cbn. apply Hsame. rewrite Hflag. apply andb_false_r. }
  repeat split; [exact Hflag | exact Hq |].
  intros Hkeep. rewrite explain_ExecutorStart_backend, Hq, Hkeep. exact Hflag.
Qed.



End StartHandler.

(** ** The End handler *)

Section EndHandler.
Context `{host : Host}.

Lemma explain_ExecutorEnd_gate (queryDesc : QueryDesc) (t : Instrumentation)
    (b : backend) :
  totaltime queryDesc = Some t ->
  explain_ExecutorEnd queryDesc b
  = if auto_explain_enabled b && current_query_sampled b
    then report_if_slow queryDesc t b
    else Some (next_ExecutorEnd queryDesc b).
Proof. intros Ht. unfold explain_ExecutorEnd. rewrite Ht. reflexivity. Qed.

Lemma nested_not_enabled (b : backend) :
  auto_explain_log_nested_statements (settings b) = false ->
  0 < nesting_level b ->
  auto_explain_enabled b = false.
Proof.
  intros Hnested Hlvl. unfold auto_explain_enabled. rewrite Hnested.
  destruct (Z.eqb_spec (nesting_level b) 0); [lia |].
  apply andb_false_r.
Qed.

(** C5. With [log_nested_statements] off, a statement at nesting depth above
    zero finds [auto_explain_enabled()] false: its Start hands the
    [QueryDesc] to the delegated call with no instrumentation flag added,
    and its End goes straight to the delegated call, logging nothing,
    whatever the elapsed time in [queryDesc->totaltime] and the sampled
    flag are. *)
Theorem nested_statement_not_logged
    (queryDesc : QueryDesc) (eflags : Z) (b : backend) :
  auto_explain_log_nested_statements (settings b) = false ->
  0 < nesting_level b ->
  auto_explain_enabled b = false
  /\ enable_instrumentation queryDesc eflags b = (Normal queryDesc, b)
  /\ explain_ExecutorStart queryDesc eflags b
     = bind (next_ExecutorStart queryDesc eflags) track_totaltime b
  /\ (forall q1 b1,
        next_ExecutorStart queryDesc eflags b = (Normal q1, b1) ->
        auto_explain_enabled b1 = false ->
        explain_ExecutorStart queryDesc eflags b = (Normal q1, b1))
  /\ explain_ExecutorEnd queryDesc b = Some (next_ExecutorEnd queryDesc b).
Proof.
  intros Hnested Hlvl.
  pose proof (nested_not_enabled b Hnested Hlvl) as Hoff.
  assert (Hen : enable_instrumentation queryDesc eflags b
                = (Normal queryDesc, b)).
  { destruct (enable_instrumentation_backend queryDesc eflags b)
      as (q & Hq & Hsame).
    rewrite Hq, (Hsame ltac:(rewrite Hoff; reflexivity)). reflexivity. }
  assert (Hb : delegated_backend b = b).
  { unfold delegated_backend. rewrite choose_sampled_skip by lia. reflexivity. }
  assert (Hstart : explain_ExecutorStart queryDesc eflags b
                   = bind (next_ExecutorStart queryDesc eflags)
                       track_totaltime b).
  { rewrite explain_ExecutorStart_delegates.
    unfold delegated_queryDesc. rewrite Hb, Hen. reflexivity. }
  repeat split; [exact Hoff | exact Hen | exact Hstart | |].
  - intros q1 b1 Hnext Hoff1. rewrite Hstart. unfold bind. rewrite Hnext.
    destruct (track_totaltime_backend q1 b1) as (q & Hq & Hsame).
    rewrite Hq, (Hsame ltac:(rewrite Hoff1; reflexivity)). reflexivity.
  - unfold explain_ExecutorEnd. rewrite Hoff.
    destruct (totaltime queryDesc); reflexivity.
Qed.

(** C6. With [log_min_duration] 100 the test [msec >= 100] lets a statement
    of exactly 100 ms through and stops one of 99.999 ms: for the former the
    rendered and fixed-up plan is logged before End is delegated, for the
    latter End is delegated with the log untouched. *)
Theorem duration_gate_inclusive
    (queryDesc : QueryDesc) (t : Instrumentation) (b : backend) :
  auto_explain_log_min_duration (settings b) = 100 ->
  totaltime queryDesc = Some t ->
  auto_explain_enabled b = true ->
  current_query_sampled b = true ->
  let msec := double_mul (total (InstrEndLoop t)) double_1000 in
  let q := set_totaltime (Some (InstrEndLoop t)) queryDesc in
  (msec = double_99_999 ->
   explain_ExecutorEnd queryDesc b = Some (next_ExecutorEnd q b))
  /\
  (msec = double_100 ->
   forall es b1 text,
     render_plan q b = (Normal es, b1) ->
     fix_up_text (auto_explain_log_format (settings b1)) (str es)
     = Some text ->
     explain_ExecutorEnd queryDesc b
     = Some (next_ExecutorEnd q (ereport_LOG double_100 text b1))
     /\ server_log (ereport_LOG double_100 text b1)
        = server_log b1 ++ [mkLog double_100 text true]).
Proof.
  intros Hmin Ht Hen Hs msec q.
  rewrite (explain_ExecutorEnd_gate _ _ _ Ht), Hen, Hs. cbn [andb].
  unfold report_if_slow. fold msec q. rewrite Hmin.
  split; intros Hmsec; rewrite Hmsec.
  - reflexivity.
  - intros es b1 text Hrender Hfix.
    change (double_ge double_100 (double_of_Z 100)) with true. cbn iota.
    unfold log_plan. rewrite Hrender, Hfix. split; reflexivity.
Qed.

End EndHandler.

(** ** The text fix-ups *)

Lemma len_snoc (data : list ascii) (c : ascii) :
  Z.to_nat (len (data ++ [c]) - 1) = length data.
Proof. unfold len. rewrite length_app. cbn. lia. Qed.

(** Exactly one trailing line break goes. *)
Lemma remove_last_line_break_snoc (data : list ascii) (c : ascii) :
  remove_last_line_break (data ++ [c])
  = if Ascii.eqb c newline then data else data ++ [c].
Proof.
  unfold remove_last_line_break, load_char.
  assert (Hpos : (0 <? len (data ++ [c])) = true).
  { apply Z.ltb_lt. unfold len. rewrite length_app. cbn. lia. }
  assert (Hidx : (0 <=? len (data ++ [c]) - 1) = true).
  { apply Z.leb_le. apply Z.ltb_lt in Hpos. lia. }
  rewrite Hpos, Hidx, len_snoc, list_lookup_middle by reflexivity.
  cbn [andb]. destruct (Ascii.eqb c newline); [| reflexivity].
  rewrite take_app_length. reflexivity.
Qed.

Lemma remove_last_line_break_nil : remove_last_line_break [] = [].
Proof. reflexivity. Qed.

Lemma store_char_head (c x : ascii) (data : list ascii) :
  store_char (c :: data) 0 x = Some (x :: data).
Proof.
  unfold store_char, len. cbn [length Z.leb Z.compare andb].
  destruct (Z.ltb_spec 0 (Z.of_nat (S (length data)))); [reflexivity | lia].
Qed.

Lemma store_char_last (c x : ascii) (data : list ascii) :
  store_char (data ++ [c]) (len (data ++ [c]) - 1) x = Some (data ++ [x]).
Proof.
  unfold store_char. rewrite len_snoc.
  assert (Hlen : len (data ++ [c]) = Z.of_nat (length data) + 1).
  { unfold len. rewrite length_app. cbn. lia. }
  rewrite Hlen.
  destruct (Z.leb_spec 0 (Z.of_nat (length data) + 1 - 1)); [| lia].
  destruct (Z.ltb_spec (Z.of_nat (length data) + 1 - 1)
              (Z.of_nat (length data) + 1)); [| lia].
  cbn [andb]. rewrite insert_app_r_alt by lia.
  rewrite Nat.sub_diag. reflexivity.
Qed.

(** On a text of at least two characters, the JSON fix-up replaces the first
    and the last. *)
Lemma fix_json_ends (first last : ascii) (body : list ascii) :
  fix_json (first :: body ++ [last])
  = Some ("{"%char :: body ++ ["}"%char]).
Proof.
  unfold fix_json. rewrite store_char_head.
  rewrite (app_comm_cons body [last] "{"%char).
  rewrite store_char_last. reflexivity.
Qed.

(** With no character to overwrite, the JSON fix-up stores outside the
    text. *)
Lemma fix_json_nil : fix_json [] = None.
Proof. reflexivity. Qed.

Section PlanReporter.
Context `{host : Host}.

(** C7. When a report is logged in JSON format and the renderer leaves
    an opening bracket, a body, a closing bracket and one line break in the
    buffer, the text logged is the body between braces: the line break is
    gone and the first and last characters are rewritten. *)
Theorem json_report_is_object
    (queryDesc : QueryDesc) (t : Instrumentation) (b b1 : backend)
    (es : ExplainState) (body : list ascii) :
  let msec := double_mul (total (InstrEndLoop t)) double_1000 in
  let q := set_totaltime (Some (InstrEndLoop t)) queryDesc in
  let text := "{"%char :: body ++ ["}"%char] in
  totaltime queryDesc = Some t ->
  auto_explain_enabled b = true ->
  current_query_sampled b = true ->
  double_ge msec (double_of_Z (auto_explain_log_min_duration (settings b)))
  = true ->
  render_plan q b = (Normal es, b1) ->
  auto_explain_log_format (settings b1) = EXPLAIN_FORMAT_JSON ->
  str es = "["%char :: body ++ ["]"%char; newline] ->
  fix_up_text EXPLAIN_FORMAT_JSON (str es) = Some text
  /\ explain_ExecutorEnd queryDesc b
     = Some (next_ExecutorEnd q (ereport_LOG msec text b1))
  /\ head text = Some "{"%char
  /\ last text = Some "}"%char
  /\ len text = len (str es) - 1.
Proof.
  intros msec q text Ht Hen Hs Hslow Hrender Hfmt Hstr.
  assert (Hfix : fix_up_text EXPLAIN_FORMAT_JSON (str es) = Some text).
  { unfold fix_up_text. rewrite Hstr. cbn [ExplainFormat_eqb].
    replace ("["%char :: body ++ ["]"%char; newline])
      with (("["%char :: body ++ ["]"%char]) ++ [newline])
      by (cbn; rewrite <- app_assoc; reflexivity).
    rewrite remove_last_line_break_snoc.
    change (Ascii.eqb newline newline) with true. cbn iota.
    apply fix_json_ends. }
  repeat split.
  - exact Hfix.
  - rewrite (explain_ExecutorEnd_gate _ _ _ Ht), Hen, Hs. cbn [andb].
    unfold report_if_slow. fold msec q. rewrite Hslow.
    unfold log_plan. rewrite Hrender, Hfmt, Hfix. reflexivity.
  - unfold text. rewrite last_cons, last_snoc. reflexivity.
  - rewrite Hstr. unfold text, len. cbn [length].
    rewrite !length_app. cbn [length]. lia.
Qed.



End PlanReporter.

(** ** The sampled flag between statements *)

Section SampledFlag.
Context `{host : Host}.



(** C2. With [sample_rate] 1.0 and [MAX_RANDOM_VALUE] 2^31 - 1, a
    top-level Start with logging enabled sets the sampled flag exactly when
    the value drawn from [random()] is below [MAX_RANDOM_VALUE]: for the
    largest value [random()] returns, the test
    [random() < auto_explain_sample_rate * MAX_RANDOM_VALUE] fails and the
    statement is not sampled. *)
Theorem sample_rate_one_skips_max_random (b : backend) :
  MAX_RANDOM_VALUE = 2147483647 ->
  auto_explain_sample_rate (settings b) = double_one ->
  0 <= auto_explain_log_min_duration (settings b) ->
  nesting_level b = 0 ->
  0 <= random_value (random_calls b) <= MAX_RANDOM_VALUE ->
  current_query_sampled (delegated_backend b)
  = (random_value (random_calls b) <? MAX_RANDOM_VALUE)
  /\ (random_value (random_calls b) = MAX_RANDOM_VALUE ->
      current_query_sampled (delegated_backend b) = false).
Proof.
  intros Hmax Hrate Hmin Hlvl Hr.
  assert (Hflag : current_query_sampled (delegated_backend b)
                  = (random_value (random_calls b) <? MAX_RANDOM_VALUE)).
  { unfold delegated_backend. rewrite (choose_sampled_top b Hmin Hlvl).
    cbn [snd current_query_sampled set_current_query_sampled].
    rewrite Hrate. apply sample_test_one; assumption. }
  split; [exact Hflag |].
  intros Hlast. rewrite Hflag, Hlast. apply Z.ltb_irrefl.
Qed.

End SampledFlag.


(** ** The properties on the concrete host *)

Lemma explain_Executor_Run_Finish_depth_witness :
  (nesting_level
     (snd (demo_ExecutorRun 0 demo_query ForwardScanDirection 0 true
             depth_demo_backend))
   = INT_MAX
   /\ fst (demo_ExecutorRun 0 demo_query ForwardScanDirection 0 true
             depth_demo_backend)
      = Raised demo_error)
  /\
  (nesting_level (snd (demo_ExecutorFinish 0 demo_query depth_demo_backend))
   = INT_MAX
   /\ fst (demo_ExecutorFinish 0 demo_query depth_demo_backend)
      = Normal demo_query).
Proof.
  destruct (@explain_Executor_Run_Finish_depth pg_instr (demo_host 0)
              demo_query ForwardScanDirection 0 true depth_demo_backend)
    as [Hrun Hfinish].
  - unfold int_range, INT_MIN, depth_demo_backend, INT_MAX. cbn. lia.
  - split.
    + destruct (Hrun eq_refl) as (Hd & Ho & _). split; [exact Hd | exact Ho].
    + destruct (Hfinish eq_refl) as (Hd & Ho & _). split; [exact Hd | exact Ho].
Defined.

Lemma PG_init_fini_round_trip_witness :
  hook_slots
    (_PG_fini
       (set_nesting_level 3
          (demo_PG_init 0
             (backend_boot (Some (extern_fn 1)) None (Some (extern_fn 7))
                None))))
  = (Some (extern_fn 1), None, Some (extern_fn 7), None).
Proof.
  destruct (@PG_init_fini_round_trip pg_instr (demo_host 0)
              (backend_boot (Some (extern_fn 1)) None (Some (extern_fn 7))
                 None))
    as (_ & _ & _ & Hlater).
  apply (Hlater
           (set_nesting_level 3
              (demo_PG_init 0
                 (backend_boot (Some (extern_fn 1)) None (Some (extern_fn 7))
                    None)))).
  reflexivity.
Defined.

Lemma sample_rate_zero_never_sampled_witness :
  current_query_sampled
    (snd (demo_ExecutorStart 5 demo_query 0
            (demo_backend
               (demo_guc 0 false false EXPLAIN_FORMAT_TEXT (S754_zero false))
               0 true None)))
  = false.
Proof.
  destruct (@sample_rate_zero_never_sampled pg_instr (demo_host 5)
              demo_query 0
              (demo_backend
                 (demo_guc 0 false false EXPLAIN_FORMAT_TEXT
                    (S754_zero false))
                 0 true None)
              false)
    as (_ & _ & Hstart).
  - reflexivity.
  - cbn. lia.
  - reflexivity.
  - cbn. lia.
  - apply Hstart. reflexivity.
Defined.


Lemma nested_statement_not_logged_witness :
  demo_ExecutorStart 5 demo_query 0
    (demo_backend (demo_guc 0 true false EXPLAIN_FORMAT_TEXT double_one)
       1 true None)
  = (Normal demo_query,
     demo_backend (demo_guc 0 true false EXPLAIN_FORMAT_TEXT double_one)
       1 true None)
  /\ demo_ExecutorEnd 5 (timed_query seconds_0_1)
       (demo_backend (demo_guc 0 true false EXPLAIN_FORMAT_TEXT double_one)
          1 true None)
     = Some (Normal (timed_query seconds_0_1),
             demo_backend
               (demo_guc 0 true false EXPLAIN_FORMAT_TEXT double_one)
               1 true None).
Proof.
  split.
  - destruct (@nested_statement_not_logged pg_instr (demo_host 5)
                demo_query 0
                (demo_backend
                   (demo_guc 0 true false EXPLAIN_FORMAT_TEXT double_one)
                   1 true None))
      as (_ & _ & _ & Hstart & _);
      [reflexivity | cbn; lia |].
    apply Hstart; reflexivity.
  - destruct (@nested_statement_not_logged pg_instr (demo_host 5)
                (timed_query seconds_0_1) 0
                (demo_backend
                   (demo_guc 0 true false EXPLAIN_FORMAT_TEXT double_one)
                   1 true None))
      as (_ & _ & _ & _ & Hend);
      [reflexivity | cbn; lia |].
    exact Hend.
Defined.

Lemma duration_gate_inclusive_witness :
  demo_ExecutorEnd 5 (timed_query seconds_0_099999)
    (demo_backend (demo_guc 100 false false EXPLAIN_FORMAT_TEXT double_one)
       0 true None)
  = Some (Normal (timed_query seconds_0_099999),
          demo_backend
            (demo_guc 100 false false EXPLAIN_FORMAT_TEXT double_one)
            0 true None)
  /\ demo_ExecutorEnd 5 (timed_query seconds_0_1)
       (demo_backend (demo_guc 100 false false EXPLAIN_FORMAT_TEXT double_one)
          0 true None)
     = Some (Normal (timed_query seconds_0_1),
             set_server_log
               [mkLog double_100
                  (list_ascii_of_string "Query Text: select 1"
                     ++ newline :: list_ascii_of_string "Result")
                  true]
               (demo_backend
                  (demo_guc 100 false false EXPLAIN_FORMAT_TEXT double_one)
                  0 true None)).
Proof.
  split.
  - apply (@duration_gate_inclusive pg_instr (demo_host 5)
             (timed_query seconds_0_099999) seconds_0_099999
             (demo_backend
                (demo_guc 100 false false EXPLAIN_FORMAT_TEXT double_one)
                0 true None));
      reflexivity.
  - pose proof (@duration_gate_inclusive pg_instr (demo_host 5)
                  (timed_query seconds_0_1) seconds_0_1
                  (demo_backend
                     (demo_guc 100 false false EXPLAIN_FORMAT_TEXT double_one)
                     0 true None)
                  eq_refl eq_refl eq_refl eq_refl) as Hgate.
    cbv zeta in Hgate. destruct Hgate as [_ Hyes].
    edestruct (Hyes eq_refl) as [Hend _];
      [reflexivity | reflexivity | exact Hend].
Defined.

Lemma json_report_is_object_witness :
  demo_ExecutorEnd 5 (timed_query seconds_0_1)
    (demo_backend (demo_guc 0 false false EXPLAIN_FORMAT_JSON double_one)
       0 true None)
  = Some (Normal (timed_query seconds_0_1),
          set_server_log
            [mkLog double_100
               (list_ascii_of_string "{{Query Text: select 1"
                  ++ newline :: list_ascii_of_string "Plan: Result}}")
               true]
            (demo_backend
               (demo_guc 0 false false EXPLAIN_FORMAT_JSON double_one)
               0 true None)).
Proof.
  edestruct (@json_report_is_object pg_instr (demo_host 5)
               (timed_query seconds_0_1) seconds_0_1
               (demo_backend
                  (demo_guc 0 false false EXPLAIN_FORMAT_JSON double_one)
                  0 true None)
               (demo_backend
                  (demo_guc 0 false false EXPLAIN_FORMAT_JSON double_one)
                  0 true None)
               (mkExplainState
                  (list_ascii_of_string "[{Query Text: select 1"
                     ++ newline :: list_ascii_of_string "Plan: Result}]"
                     ++ [newline])
                  false false false false false EXPLAIN_FORMAT_JSON)
               (list_ascii_of_string "{Query Text: select 1"
                  ++ newline :: list_ascii_of_string "Plan: Result}")
               eq_refl eq_refl eq_refl eq_refl eq_refl eq_refl eq_refl)
    as (_ & Hend & _).
  exact Hend.
Defined.




(** On that input End only delegates and the log stays empty. *)
Lemma stale_flag_without_accumulator :
  current_query_sampled (set_log_min_duration 0 plain_loaded_backend) = true
  /\ @auto_explain_enabled (set_log_min_duration 0 plain_loaded_backend) = true
  /\ demo_ExecutorEnd 5 demo_query (set_log_min_duration 0 plain_loaded_backend)
     = Some (Normal demo_query, set_log_min_duration 0 plain_loaded_backend)
  /\ server_log (set_log_min_duration 0 plain_loaded_backend) = [].
Proof. repeat split. Qed.

Lemma sample_rate_one_skips_max_random_witness :
  0 <= 2147483647 <= @MAX_RANDOM_VALUE pg_instr (demo_host 2147483647)
  /\ current_query_sampled
       (snd (demo_ExecutorStart 2147483647 demo_query 0
               (demo_backend
                  (demo_guc 0 false false EXPLAIN_FORMAT_TEXT double_one)
                  0 true None)))
     = false.
Proof.
  split; [cbn; lia |].
  unfold demo_ExecutorStart. rewrite explain_ExecutorStart_backend.
  change (current_query_sampled
            (@delegated_backend pg_instr (demo_host 2147483647)
               (demo_backend
                  (demo_guc 0 false false EXPLAIN_FORMAT_TEXT double_one)
                  0 true None))
          = false).
  apply (@sample_rate_one_skips_max_random pg_instr (demo_host 2147483647));
    [reflexivity | reflexivity | cbn; lia | reflexivity | cbn; lia
    | reflexivity].
Defined.

(** * Further properties *)

(** ** Start: flags, accumulator, failure *)

Section StartDetails.
Context `{host : Host}.

(** The sampling step writes the sampled flag and the draw counter only. *)
Lemma choose_sampled_frame (b : backend) :
  settings (delegated_backend b) = settings b
  /\ nesting_level (delegated_backend b) = nesting_level b
  /\ server_log (delegated_backend b) = server_log b
  /\ saved_hooks (delegated_backend b) = saved_hooks b
  /\ hook_slots (delegated_backend b) = hook_slots b.
Proof.
  unfold delegated_backend, choose_sampled, bind, gets, id, random, modify, ret.
  destruct (_ && _); repeat split.
Qed.

Lemma lor_keeps_bits (a m : Z) : Z.land (Z.lor a m) a = a.
Proof.
  apply Z.bits_inj'. intros n Hn.
  rewrite Z.land_spec, Z.lor_spec.
  destruct (Z.testbit a n), (Z.testbit m n); reflexivity.
Qed.

(** X1. The [QueryDesc] the executor is started with differs from the caller's
    in [instrument_options] at most, and there only by added bits: with
    [log_analyze] off, or in EXPLAIN-only mode, it is the caller's; for an
    enabled, sampled statement otherwise, the timer bit (or the row-count bit
    when [log_timing] is off) and, with [log_buffers], the buffer bit are
    or-ed in. *)
Theorem start_instrument_options
    (queryDesc : QueryDesc) (eflags : Z) (b : backend) :
  let q0 := delegated_queryDesc queryDesc eflags b in
  let b0 := delegated_backend b in
  let g := settings b in
  sourceText q0 = sourceText queryDesc
  /\ totaltime q0 = totaltime queryDesc
  /\ Z.land (instrument_options q0) (instrument_options queryDesc)
     = instrument_options queryDesc
  /\ (auto_explain_log_analyze g = false
      \/ Z.land eflags EXEC_FLAG_EXPLAIN_ONLY <> 0
      \/ auto_explain_enabled b0 && current_query_sampled b0 = false ->
      q0 = queryDesc)
  /\ (auto_explain_enabled b0 && current_query_sampled b0 = true ->
      auto_explain_log_analyze g = true ->
      Z.land eflags EXEC_FLAG_EXPLAIN_ONLY = 0 ->
      instrument_options q0
      = let o := Z.lor (instrument_options queryDesc)
                   (if auto_explain_log_timing g
                    then INSTRUMENT_TIMER else INSTRUMENT_ROWS) in
        if auto_explain_log_buffers g then Z.lor o INSTRUMENT_BUFFERS else o).
Proof.
  intros q0 b0 g.
  destruct (choose_sampled_frame b) as (Hg & _).
  unfold q0, delegated_queryDesc. fold b0.
  unfold enable_instrumentation, bind, gets, id, ret.
  fold b0 in Hg. rewrite Hg. fold g.
  destruct (auto_explain_enabled b0 && current_query_sampled b0);
    [| cbn; repeat split; auto using Z.land_diag; discriminate].
  destruct (auto_explain_log_analyze g);
    [| cbn; repeat split; auto using Z.land_diag; discriminate].
  destruct (Z.eqb_spec (Z.land eflags EXEC_FLAG_EXPLAIN_ONLY) 0) as [He | He];
    [| cbn; repeat split; auto using Z.land_diag; intros; contradiction].
  cbn [andb].
  destruct (auto_explain_log_timing g), (auto_explain_log_buffers g);
    cbn; (split; [reflexivity |]); (split; [reflexivity |]);
    (split; [rewrite <- ?Z.lor_assoc; apply lor_keeps_bits |]);
    (split; [| reflexivity]);
    intros [Hoff | [Hflag | Hoff]];
    (discriminate || contradiction).
Qed.

(** X2. When the delegated Start fails, the handler fails with the same error
    and leaves the backend as the delegated call left it; no accumulator is
    set up. *)
Theorem start_error_passes_through
    (queryDesc : QueryDesc) (eflags : Z) (b b1 : backend) (e : ErrorData) :
  next_ExecutorStart (delegated_queryDesc queryDesc eflags b) eflags
    (delegated_backend b)
  = (Raised e, b1) ->
  explain_ExecutorStart queryDesc eflags b = (Raised e, b1).
Proof.
  intros Hnext. rewrite explain_ExecutorStart_delegates.
  unfold bind. rewrite Hnext. reflexivity.
Qed.

(** X3. A Start that returns has set up the elapsed-time accumulator exactly
    when the module is enabled and the statement sampled in the backend the
    delegated call left: then [totaltime] is not null, an accumulator
    allocated by the delegated call being kept as it is; otherwise the
    [QueryDesc] is the one the delegated call returned. *)
Theorem start_totaltime_allocated
    (queryDesc q1 : QueryDesc) (eflags : Z) (b b1 : backend) :
  explain_ExecutorStart queryDesc eflags b = (Normal q1, b1) ->
  exists q',
    next_ExecutorStart (delegated_queryDesc queryDesc eflags b) eflags
      (delegated_backend b)
    = (Normal q', b1)
    /\ sourceText q1 = sourceText q'
    /\ instrument_options q1 = instrument_options q'
    /\ (forall t, totaltime q' = Some t -> q1 = q')
    /\ (auto_explain_enabled b1 && current_query_sampled b1 = true ->
        totaltime q1 <> None)
    /\ (auto_explain_enabled b1 && current_query_sampled b1 = false ->
        q1 = q').
Proof.
  rewrite explain_ExecutorStart_delegates. unfold bind.
  destruct (next_ExecutorStart _ _ _) as [[q' | e] b'] eqn:Hnext;
    [| discriminate].
  unfold track_totaltime, bind, gets, id, ret.
  destruct (auto_explain_enabled b' && current_query_sampled b') eqn:Hon.
  - destruct (totaltime q') as [t |] eqn:Ht; intros Heq;
      injection Heq as <- <-; exists q'; rewrite Hon;
      (split; [reflexivity |]); (split; [reflexivity |]);
      (split; [reflexivity |]).
    + split; [reflexivity |]. split; [| discriminate].
      intros _. rewrite Ht. discriminate.
    + split; [intros t Hs; rewrite Ht in Hs; discriminate |].
      split; [| discriminate]. intros _. cbn. discriminate.
  - intros Heq. injection Heq as <- <-. exists q'. rewrite Hon.
    repeat split; auto; discriminate.
Qed.

(** X4. A statement whose Start returned with the module enabled and the
    statement sampled has an accumulator, so its End, run while the module is
    enabled and the flag still set, gets to the duration test. *)
Theorem started_statement_reaches_duration_test
    (queryDesc q1 : QueryDesc) (eflags : Z) (b b1 : backend) :
  explain_ExecutorStart queryDesc eflags b = (Normal q1, b1) ->
  auto_explain_enabled b1 && current_query_sampled b1 = true ->
  exists t,
    totaltime q1 = Some t
    /\ forall b2,
         auto_explain_enabled b2 && current_query_sampled b2 = true ->
         explain_ExecutorEnd q1 b2 = report_if_slow q1 t b2.
Proof.
  intros Hstart Hon.
  destruct (start_totaltime_allocated _ _ _ _ _ Hstart)
    as (q' & _ & _ & _ & _ & Hsome & _).
  specialize (Hsome Hon).
  destruct (totaltime q1) as [t |] eqn:Ht; [| contradiction].
  exists t. split; [reflexivity |].
  intros b2 Hon2. unfold explain_ExecutorEnd. rewrite Ht, Hon2. reflexivity.
Qed.

(** X5. With [log_min_duration] negative the module is switched off: Start is
    the delegated Start (same outcome, same backend, no random value drawn)
    as long as that call leaves [log_min_duration] negative, and End is the
    delegated End. *)
Theorem disabled_module_is_transparent
    (queryDesc : QueryDesc) (eflags : Z) (b : backend) :
  auto_explain_log_min_duration (settings b) < 0 ->
  delegated_backend b = b
  /\ (forall r b1,
        next_ExecutorStart queryDesc eflags b = (r, b1) ->
        auto_explain_log_min_duration (settings b1) < 0 ->
        explain_ExecutorStart queryDesc eflags b = (r, b1))
  /\ explain_ExecutorEnd queryDesc b = Some (next_ExecutorEnd queryDesc b).
Proof.
  intros Hmin.
  assert (Hoff : forall b', auto_explain_log_min_duration (settings b') < 0 ->
                            auto_explain_enabled b' = false).
  { intros b' Hb'. unfold auto_explain_enabled.
    destruct (Z.leb_spec 0 (auto_explain_log_min_duration (settings b')));
      [lia | reflexivity]. }
  assert (Hb : delegated_backend b = b).
  { unfold delegated_backend. rewrite choose_sampled_skip by lia. reflexivity. }
  assert (Hq : delegated_queryDesc queryDesc eflags b = queryDesc).
  { apply (start_instrument_options queryDesc eflags b).
    right. right. rewrite Hb, (Hoff b Hmin). reflexivity. }
  split; [exact Hb |]. split.
  - intros r b1 Hnext Hmin1.
    rewrite explain_ExecutorStart_delegates, Hb, Hq. unfold bind.
    rewrite Hnext. destruct r as [q' | e]; [| reflexivity].
    destruct (track_totaltime_backend q' b1) as (q & Hq' & Hsame).
    rewrite Hq', (Hsame ltac:(rewrite (Hoff b1 Hmin1); reflexivity)).
    reflexivity.
  - unfold explain_ExecutorEnd. rewrite (Hoff b Hmin).
    destruct (totaltime queryDesc); reflexivity.
Qed.

(** X6. A sampled statement started with [log_analyze] on (outside EXPLAIN-only
    mode) carries a non-zero [instrument_options], the flag bits being
    non-zero, so its report is an ANALYZE report whenever [log_analyze] is
    on when the report is built. *)
Theorem instrumented_statement_reports_analyze
    (queryDesc : QueryDesc) (eflags : Z) (b : backend) :
  INSTRUMENT_TIMER <> 0 ->
  INSTRUMENT_ROWS <> 0 ->
  auto_explain_enabled (delegated_backend b)
  && current_query_sampled (delegated_backend b) = true ->
  auto_explain_log_analyze (settings b) = true ->
  Z.land eflags EXEC_FLAG_EXPLAIN_ONLY = 0 ->
  let q0 := delegated_queryDesc queryDesc eflags b in
  instrument_options q0 <> 0
  /\ forall g es,
       auto_explain_log_analyze g = true ->
       analyze (explain_options g q0 es) = true
       /\ summary (explain_options g q0 es) = true
       /\ buffers (explain_options g q0 es) = auto_explain_log_buffers g
       /\ timing (explain_options g q0 es) = auto_explain_log_timing g.
Proof.
  intros Htimer Hrows Hon Hanalyze Hexec q0.
  assert (Hne : instrument_options q0 <> 0).
  { destruct (start_instrument_options queryDesc eflags b)
      as (_ & _ & _ & _ & Hopts).
    unfold q0. rewrite (Hopts Hon Hanalyze Hexec). cbv zeta.
    assert (Hbit : Z.lor (instrument_options queryDesc)
                     (if auto_explain_log_timing (settings b)
                      then INSTRUMENT_TIMER else INSTRUMENT_ROWS) <> 0).
    { intros Hz. apply Z.lor_eq_0_iff in Hz. destruct Hz as [_ Hz].
      destruct (auto_explain_log_timing (settings b)); contradiction. }
    destruct (auto_explain_log_buffers (settings b)); [| exact Hbit].
    intros Hz. apply Z.lor_eq_0_iff in Hz. destruct Hz as [Hz _].
    contradiction. }
  split; [exact Hne |].
  intros g es Hg. unfold explain_options. cbn.
  destruct (Z.eqb_spec (instrument_options q0) 0); [contradiction |].
  rewrite Hg. repeat split.
Qed.

End StartDetails.

(** ** Doubles that are not negative *)

Lemma shr_1_nonneg (mrs : shr_record) :
  0 <= shr_m mrs -> 0 <= shr_m (shr_1 mrs).
Proof.
  destruct mrs as [m r s]. cbn [shr_m].
  destruct m as [| p | p]; [| destruct p | lia]; cbn; lia.
Qed.

Lemma iter_shr_1_nonneg (p : positive) :
  forall mrs, 0 <= shr_m mrs -> 0 <= shr_m (SpecFloat.iter_pos shr_1 p mrs).
Proof.
  induction p as [p IH | p IH |]; intros mrs Hm; cbn [SpecFloat.iter_pos];
    auto using shr_1_nonneg.
Qed.

Lemma shr_fexp_nonneg (m e : Z) (l : location) :
  0 <= m -> 0 <= shr_m (fst (shr_fexp 53 1024 m e l)).
Proof.
  intros Hm. unfold shr_fexp, shr.
  assert (Hrec : 0 <= shr_m (shr_record_of_loc m l))
    by (destruct l as [| []]; exact Hm).
  destruct (fexp 53 1024 (Zdigits2 m + e) - e); cbn [fst];
    auto using iter_shr_1_nonneg.
Qed.

(** Rounding a non-negative mantissa gives a zero, a finite number or an
    infinity of the given sign. *)
Lemma binary_round_aux_nonneg (mx ex : Z) (lx : location) :
  0 <= mx ->
  double_nonneg (binary_round_aux 53 1024 false mx ex lx) = true.
Proof.
  intros Hm. unfold binary_round_aux.
  pose proof (shr_fexp_nonneg mx ex lx Hm) as H1.
  destruct (shr_fexp 53 1024 mx ex lx) as [mrs' e']. cbn [fst] in H1.
  assert (Hr : 0 <= round_nearest_even (shr_m mrs') (loc_of_shr_record mrs')).
  { unfold round_nearest_even.
    destruct (loc_of_shr_record mrs') as [| []];
      try destruct (Z.even (shr_m mrs')); lia. }
  pose proof (shr_fexp_nonneg _ e' loc_Exact Hr) as H2.
  destruct (shr_fexp 53 1024 _ e' loc_Exact) as [mrs'' e'']. cbn [fst] in H2.
  destruct (shr_m mrs''); [reflexivity | | lia].
  destruct (Z.leb e'' (1024 - 53)); reflexivity.
Qed.

Lemma double_mul_1000_nonneg (x : double) :
  double_nonneg x = true -> double_nonneg (double_mul x double_1000) = true.
Proof.
  unfold double_mul, double_1000.
  destruct x as [s | s | | s m e]; cbn [double_nonneg SFmul];
    try discriminate; try reflexivity.
  - destruct s; [discriminate | reflexivity].
  - destruct s; [discriminate |]. intros _.
    apply binary_round_aux_nonneg. lia.
Qed.

Lemma double_ge_zero (x : double) :
  double_nonneg x = true -> double_ge x (double_of_Z 0) = true.
Proof.
  destruct x as [s | [] | | [] m e]; cbn; intros Hx;
    try discriminate; reflexivity.
Qed.

(** ** The text fix-ups, case by case *)

Lemma list_snoc_cases {A} (l : list A) :
  l = [] \/ exists l' x, l = l' ++ [x].
Proof.
  induction l as [| a l IH]; [left; reflexivity |].
  right. destruct IH as [-> | (l' & x & ->)].
  - exists [], a. reflexivity.
  - exists (a :: l'), x. reflexivity.
Qed.

(** The text without its last line break, if it ends in one. *)
Lemma remove_last_line_break_spec (data : list ascii) :
  data = remove_last_line_break data ++ [newline]
  \/ (data = remove_last_line_break data /\ last data <> Some newline).
Proof.
  destruct (list_snoc_cases data) as [-> | (d & c & ->)].
  - right. split; [reflexivity | discriminate].
  - rewrite remove_last_line_break_snoc.
    destruct (Ascii.eqb_spec c newline) as [-> | Hc].
    + left. reflexivity.
    + right. split; [reflexivity |].
      rewrite last_snoc. intros Heq. injection Heq as Heq. contradiction.
Qed.

Lemma remove_last_line_break_empty (data : list ascii) :
  remove_last_line_break data = [] <-> data = [] \/ data = [newline].
Proof.
  split.
  - intros Hnil. destruct (remove_last_line_break_spec data) as [Hd | [Hd _]];
      rewrite Hnil in Hd; [right | left]; exact Hd.
  - intros [-> | ->]; reflexivity.
Qed.

(** X11. The JSON fix-up, on every text: it stores outside an empty text, turns
    a one-character text into a closing brace (the second store overwrites
    the first), and on a longer text replaces the first and last characters,
    whatever they are, leaving the others and the length alone. *)
Theorem fix_json_cases :
  fix_json [] = None
  /\ (forall c, fix_json [c] = Some ["}"%char])
  /\ (forall first body last,
        fix_json (first :: body ++ [last])
        = Some ("{"%char :: body ++ ["}"%char]))
  /\ (forall data text,
        fix_json data = Some text ->
        length text = length data
        /\ ((exists c, data = [c] /\ text = ["}"%char])
            \/ exists first body last,
                 data = first :: body ++ [last]
                 /\ text = "{"%char :: body ++ ["}"%char])).
Proof.
  split; [reflexivity |].
  split; [intros c; unfold fix_json; rewrite store_char_head; reflexivity |].
  split; [intros first body lst; apply fix_json_ends |].
  intros data text Hfix.
  destruct data as [| first rest]; [discriminate Hfix |].
  destruct (list_snoc_cases rest) as [-> | (body & lst & ->)].
  - unfold fix_json in Hfix. rewrite store_char_head in Hfix.
    cbn in Hfix. injection Hfix as <-.
    split; [reflexivity |]. left. exists first. split; reflexivity.
  - rewrite fix_json_ends in Hfix. injection Hfix as <-.
    split; [cbn; rewrite !length_app; reflexivity |].
    right. exists first, body, lst. split; reflexivity.
Qed.

Lemma fix_json_none (data : list ascii) : fix_json data = None <-> data = [].
Proof.
  split; [| intros ->; reflexivity].
  destruct data as [| first rest]; [reflexivity |].
  destruct (list_snoc_cases rest) as [-> | (body & lst & ->)].
  - unfold fix_json. rewrite store_char_head. cbn. discriminate.
  - rewrite fix_json_ends. discriminate.
Qed.

Lemma fix_up_text_none (fmt : ExplainFormat) (data : list ascii) :
  fix_up_text fmt data = None
  <-> fmt = EXPLAIN_FORMAT_JSON /\ (data = [] \/ data = [newline]).
Proof.
  unfold fix_up_text. rewrite <- remove_last_line_break_empty.
  destruct fmt; cbn [ExplainFormat_eqb];
    try (split; [discriminate | intros [Hf _]; discriminate Hf]).
  rewrite fix_json_none. split; [intros Hd; split; [reflexivity | exact Hd] |].
  intros [_ Hd]. exact Hd.
Qed.

(** ** End: what is logged, and when *)

Section EndDetails.
Context `{host : Host}.

(** The handler past its first test. *)
Lemma explain_ExecutorEnd_report (queryDesc : QueryDesc) (t : Instrumentation)
    (b : backend) :
  totaltime queryDesc = Some t ->
  auto_explain_enabled b && current_query_sampled b = true ->
  explain_ExecutorEnd queryDesc b = report_if_slow queryDesc t b.
Proof.
  intros Ht Hon. unfold explain_ExecutorEnd. rewrite Ht, Hon. reflexivity.
Qed.

(** X7. "Zero prints all plans": with [log_min_duration] 0, every enabled,
    sampled statement whose accumulated time is not negative (nor NaN) is
    logged, however short it ran, once its plan is rendered. *)
Theorem zero_min_duration_logs_all
    (queryDesc : QueryDesc) (t : Instrumentation) (b b1 : backend)
    (es : ExplainState) (text : list ascii) :
  let msec := double_mul (total (InstrEndLoop t)) double_1000 in
  let q := set_totaltime (Some (InstrEndLoop t)) queryDesc in
  auto_explain_log_min_duration (settings b) = 0 ->
  totaltime queryDesc = Some t ->
  auto_explain_enabled b && current_query_sampled b = true ->
  double_nonneg (total (InstrEndLoop t)) = true ->
  render_plan q b = (Normal es, b1) ->
  fix_up_text (auto_explain_log_format (settings b1)) (str es) = Some text ->
  explain_ExecutorEnd queryDesc b
  = Some (next_ExecutorEnd q (ereport_LOG msec text b1)).
Proof.
  intros msec q Hmin Ht Hon Htotal Hrender Hfix.
  rewrite (explain_ExecutorEnd_report _ _ _ Ht Hon).
  unfold report_if_slow. fold msec q. rewrite Hmin.
  rewrite (double_ge_zero msec (double_mul_1000_nonneg _ Htotal)).
  unfold log_plan. rewrite Hrender, Hfix. reflexivity.
Qed.

(** X8. The handler stores outside the rendered text in one situation only: a
    plan is to be logged in JSON format and the renderer left the buffer
    empty, or with a line break alone. *)
Theorem end_fault_iff_empty_json (queryDesc : QueryDesc) (b : backend) :
  explain_ExecutorEnd queryDesc b = None
  <-> exists t es b1,
        totaltime queryDesc = Some t
        /\ auto_explain_enabled b && current_query_sampled b = true
        /\ double_ge (double_mul (total (InstrEndLoop t)) double_1000)
             (double_of_Z (auto_explain_log_min_duration (settings b)))
           = true
        /\ render_plan (set_totaltime (Some (InstrEndLoop t)) queryDesc) b
           = (Normal es, b1)
        /\ auto_explain_log_format (settings b1) = EXPLAIN_FORMAT_JSON
        /\ (str es = [] \/ str es = [newline]).
Proof.
  unfold explain_ExecutorEnd, report_if_slow, log_plan. split.
  - destruct (totaltime queryDesc) as [t |]; [| discriminate].
    destruct (auto_explain_enabled b && current_query_sampled b);
      [| discriminate].
    destruct (double_ge _ _) eqn:Hslow; [| discriminate].
    destruct (render_plan _ b) as [[es | e] b1] eqn:Hrender; [| discriminate].
    destruct (fix_up_text _ (str es)) as [text |] eqn:Hfix; [discriminate |].
    intros _. apply fix_up_text_none in Hfix. destruct Hfix as [Hfmt Hstr].
    exists t, es, b1. repeat split; auto.
  - intros (t & es & b1 & Ht & Hon & Hslow & Hrender & Hfmt & Hstr).
    rewrite Ht, Hon, Hslow, Hrender.
    assert (Hfix : fix_up_text (auto_explain_log_format (settings b1)) (str es)
                   = None)
      by (apply fix_up_text_none; split; assumption).
    rewrite Hfix. reflexivity.
Qed.

(** X9. When rendering the plan fails, the handler fails with the renderer's
    error: nothing is logged and End is not delegated. *)
Theorem render_error_skips_log_and_delegate
    (queryDesc : QueryDesc) (t : Instrumentation) (b b1 : backend)
    (e : ErrorData) :
  totaltime queryDesc = Some t ->
  auto_explain_enabled b && current_query_sampled b = true ->
  double_ge (double_mul (total (InstrEndLoop t)) double_1000)
    (double_of_Z (auto_explain_log_min_duration (settings b)))
  = true ->
  render_plan (set_totaltime (Some (InstrEndLoop t)) queryDesc) b
  = (Raised e, b1) ->
  explain_ExecutorEnd queryDesc b = Some (Raised e, b1).
Proof.
  intros Ht Hon Hslow Hrender.
  rewrite (explain_ExecutorEnd_report _ _ _ Ht Hon).
  unfold report_if_slow, log_plan. rewrite Hslow, Hrender. reflexivity.
Qed.

(** X10. In the text, XML and YAML formats the plan is logged as rendered, less
    one final line break if there is one, with the duration and with the
    statement text hidden, and End is then delegated. *)
Theorem plain_report_text
    (queryDesc : QueryDesc) (t : Instrumentation) (b b1 : backend)
    (es : ExplainState) :
  let msec := double_mul (total (InstrEndLoop t)) double_1000 in
  let q := set_totaltime (Some (InstrEndLoop t)) queryDesc in
  let text := remove_last_line_break (str es) in
  totaltime queryDesc = Some t ->
  auto_explain_enabled b && current_query_sampled b = true ->
  double_ge msec (double_of_Z (auto_explain_log_min_duration (settings b)))
  = true ->
  render_plan q b = (Normal es, b1) ->
  auto_explain_log_format (settings b1) <> EXPLAIN_FORMAT_JSON ->
  explain_ExecutorEnd queryDesc b
  = Some (next_ExecutorEnd q (ereport_LOG msec text b1))
  /\ server_log (ereport_LOG msec text b1)
     = server_log b1 ++ [mkLog msec text true]
  /\ (str es = text ++ [newline]
      \/ (str es = text /\ last (str es) <> Some newline)).
Proof.
  intros msec q text Ht Hon Hslow Hrender Hfmt.
  split; [| split; [reflexivity | apply remove_last_line_break_spec]].
  rewrite (explain_ExecutorEnd_report _ _ _ Ht Hon).
  unfold report_if_slow. fold msec q. rewrite Hslow.
  unfold log_plan. rewrite Hrender. unfold fix_up_text. fold text.
  destruct (auto_explain_log_format (settings b1));
    try contradiction; reflexivity.
Qed.

(** X12. [log_triggers] "has no effect unless log_analyze is also set": when the
    statement has no instrumentation options or [log_analyze] is off, the
    rendering does not depend on [ExplainPrintTriggers]. *)
Theorem triggers_only_with_analyze
    (queryDesc : QueryDesc) (b : backend)
    (print_triggers : ExplainState -> QueryDesc -> exec (list ascii)) :
  negb (instrument_options queryDesc =? 0)
  && auto_explain_log_analyze (settings b) = false ->
  @render_plan _ (with_ExplainPrintTriggers host print_triggers) queryDesc b
  = @render_plan _ host queryDesc b.
Proof.
  intros Hoff.
  unfold render_plan, with_ExplainPrintTriggers, with_renderer, bind, gets,
    ret.
  cbn [ExplainBeginOutput ExplainQueryText ExplainPrintPlan
       ExplainPrintTriggers ExplainEndOutput NewExplainState].
  destruct (ExplainBeginOutput _ b) as [[t1 | e1] s1]; [| reflexivity].
  destruct (ExplainQueryText _ _ s1) as [[t2 | e2] s2]; [| reflexivity].
  destruct (ExplainPrintPlan _ _ s2) as [[t3 | e3] s3]; [| reflexivity].
  cbn [analyze set_str explain_options]. rewrite Hoff. reflexivity.
Qed.

(** X13. After loading, each handler delegates to what the hook slot held at
    load time, the executor's standard function when it was empty: Run and
    Finish return its outcome, Start runs it between its own two steps, and
    End calls it on every path on which it delegates: at once when no plan
    is logged (no accumulator, not enabled, not sampled, or too short a
    run), and after the log record is written when one is, the saved End
    hook being still the one of the load once the plan is rendered. *)
Theorem loaded_handlers_chain_to_previous
    (queryDesc : QueryDesc) (eflags : Z) (direction : ScanDirection)
    (count : Z) (execute_once : bool) (b : backend) :
  let b' := _PG_init b in
  let inner := set_nesting_level (wrap_int (nesting_level b + 1)) b' in
  let previous_End q :=
    match ExecutorEnd_hook b with
    | Some f => call_ExecutorEnd f q
    | None => standard_ExecutorEnd q
    end in
  fst (explain_ExecutorRun queryDesc direction count execute_once b')
  = fst (match ExecutorRun_hook b with
         | Some f => call_ExecutorRun f queryDesc direction count execute_once
         | None => standard_ExecutorRun queryDesc direction count execute_once
         end inner)
  /\ fst (explain_ExecutorFinish queryDesc b')
     = fst (match ExecutorFinish_hook b with
            | Some f => call_ExecutorFinish f queryDesc
            | None => standard_ExecutorFinish queryDesc
            end inner)
  /\ explain_ExecutorStart queryDesc eflags b'
     = bind (match ExecutorStart_hook b with
             | Some f =>
                 call_ExecutorStart f (delegated_queryDesc queryDesc eflags b')
                   eflags
             | None =>
                 standard_ExecutorStart
                   (delegated_queryDesc queryDesc eflags b') eflags
             end)
         track_totaltime (delegated_backend b')
  /\ next_ExecutorEnd queryDesc b'
     = match ExecutorEnd_hook b with
       | Some f => call_ExecutorEnd f queryDesc
       | None => standard_ExecutorEnd queryDesc
       end b'
  /\ (totaltime queryDesc = None
      \/ auto_explain_enabled b' && current_query_sampled b' = false ->
      explain_ExecutorEnd queryDesc b' = Some (previous_End queryDesc b'))
  /\ (forall t,
        totaltime queryDesc = Some t ->
        auto_explain_enabled b' && current_query_sampled b' = true ->
        let msec := double_mul (total (InstrEndLoop t)) double_1000 in
        let q := set_totaltime (Some (InstrEndLoop t)) queryDesc in
        (double_ge msec
           (double_of_Z (auto_explain_log_min_duration (settings b')))
         = false ->
         explain_ExecutorEnd queryDesc b' = Some (previous_End q b'))
        /\ (forall es b1 text,
              double_ge msec
                (double_of_Z (auto_explain_log_min_duration (settings b')))
              = true ->
              render_plan q b' = (Normal es, b1) ->
              fix_up_text (auto_explain_log_format (settings b1)) (str es)
              = Some text ->
              prev_ExecutorEnd b1 = ExecutorEnd_hook b ->
              explain_ExecutorEnd queryDesc b'
              = Some (previous_End q (ereport_LOG msec text b1)))).
Proof.
  intros b' inner previous_End.
  assert (Hnext : forall q s,
            prev_ExecutorEnd s = ExecutorEnd_hook b ->
            next_ExecutorEnd q s = previous_End q s).
  { intros q s Hs. unfold next_ExecutorEnd, previous_End. rewrite Hs.
    destruct (ExecutorEnd_hook b); reflexivity. }
  split; [| split; [| split; [| split; [| split]]]].
  - unfold explain_ExecutorRun. rewrite bracket_depth. cbn [fst].
    unfold next_ExecutorRun. cbn.
    destruct (ExecutorRun_hook b); reflexivity.
  - unfold explain_ExecutorFinish. rewrite bracket_depth. cbn [fst].
    unfold next_ExecutorFinish. cbn.
    destruct (ExecutorFinish_hook b); reflexivity.
  - rewrite explain_ExecutorStart_delegates. unfold bind, next_ExecutorStart.
    destruct (choose_sampled_frame b') as (_ & _ & _ & Hsaved & _).
    injection Hsaved as Hs _ _ _. rewrite Hs. cbn.
    destruct (ExecutorStart_hook b); reflexivity.
  - unfold next_ExecutorEnd. cbn. destruct (ExecutorEnd_hook b); reflexivity.
  - intros Hskip. rewrite <- (Hnext queryDesc b' eq_refl).
    unfold explain_ExecutorEnd.
    destruct Hskip as [Hnone | Hoff]; [rewrite Hnone; reflexivity |].
    rewrite Hoff. destruct (totaltime queryDesc); reflexivity.
  - intros t Ht Hon msec q.
    rewrite (explain_ExecutorEnd_report _ _ _ Ht Hon).
    unfold report_if_slow. fold msec q. split.
    + intros Hfast. rewrite Hfast, (Hnext q b' eq_refl). reflexivity.
    + intros es b1 text Hslow Hrender Hfix Hsaved. rewrite Hslow.
      unfold log_plan. rewrite Hrender, Hfix.
      rewrite (Hnext q (ereport_LOG msec text b1) Hsaved). reflexivity.
Qed.

End EndDetails.

(** ** Statements that are not reported *)

(** [x < y] excludes [x >= y]. *)
Lemma double_lt_not_ge (x y : double) :
  double_lt x y = true -> double_ge x y = false.
Proof.
  assert (Hanti : forall p q,
            Pos.compare_cont Eq q p = CompOpp (Pos.compare_cont Eq p q))
    by (intros p q; symmetry; apply (Pos.compare_cont_antisym p q Eq)).
  unfold double_lt, double_ge, SFltb, SFleb.
  destruct x as [sx | sx | | sx mx ex], y as [sy | sy | | sy my ey];
    cbn [SFcompare]; try discriminate; try reflexivity;
    try (destruct sx; try discriminate; reflexivity);
    try (destruct sy; try discriminate; reflexivity);
    try (destruct sx, sy; try discriminate; reflexivity).
  destruct sx, sy; try discriminate; try reflexivity;
    rewrite (Z.compare_antisym ex ey);
    destruct (Z.compare ex ey); cbn [CompOpp]; try discriminate;
    try reflexivity;
    rewrite (Hanti mx my);
    destruct (Pos.compare_cont Eq mx my); cbn [CompOpp];
    try discriminate; reflexivity.
Qed.

Section NotReported.
Context `{host : Host}.

(** X14. An enabled, sampled statement that ran for less than
    [log_min_duration], or whose elapsed time is NaN, is not logged and its
    plan is not rendered: the handler closes the measurement and delegates
    End. *)
Theorem short_statement_not_logged
    (queryDesc : QueryDesc) (t : Instrumentation) (b : backend) :
  let msec := double_mul (total (InstrEndLoop t)) double_1000 in
  totaltime queryDesc = Some t ->
  auto_explain_enabled b && current_query_sampled b = true ->
  double_lt msec (double_of_Z (auto_explain_log_min_duration (settings b)))
  = true
  \/ msec = S754_nan ->
  explain_ExecutorEnd queryDesc b
  = Some (next_ExecutorEnd
            (set_totaltime (Some (InstrEndLoop t)) queryDesc) b).
Proof.
  intros msec Ht Hon Hfast.
  unfold explain_ExecutorEnd. rewrite Ht, Hon.
  unfold report_if_slow. fold msec.
  assert (Hno : double_ge msec
                  (double_of_Z (auto_explain_log_min_duration (settings b)))
                = false).
  { destruct Hfast as [Hlt | Hnan].
    - apply double_lt_not_ge. exact Hlt.
    - rewrite Hnan. unfold double_ge, SFleb.
      destruct (double_of_Z _); reflexivity. }
  rewrite Hno. reflexivity.
Qed.

(** X15. A statement that was not sampled is left alone: its Start adds no
    instrumentation flag and, the flag staying clear, no accumulator, and its
    End only delegates, whatever the statement's elapsed time. *)
Theorem unsampled_statement_is_untouched
    (queryDesc : QueryDesc) (eflags : Z) (b : backend) :
  current_query_sampled (delegated_backend b) = false ->
  delegated_queryDesc queryDesc eflags b = queryDesc
  /\ (forall r b1,
        next_ExecutorStart queryDesc eflags (delegated_backend b) = (r, b1) ->
        current_query_sampled b1 = false ->
        explain_ExecutorStart queryDesc eflags b = (r, b1)
        /\ forall q,
             explain_ExecutorEnd q b1 = Some (next_ExecutorEnd q b1)).
Proof.
  intros Hflag.
  assert (Hq : delegated_queryDesc queryDesc eflags b = queryDesc).
  { unfold delegated_queryDesc.
    destruct (enable_instrumentation_backend queryDesc eflags
                (delegated_backend b)) as (q & Hq & Hsame).
    rewrite Hq. cbn. apply Hsame. rewrite Hflag. apply andb_false_r. }
  split; [exact Hq |].
  intros r b1 Hnext Hflag1. split.
  - rewrite explain_ExecutorStart_delegates, Hq. unfold bind. rewrite Hnext.
    destruct r as [q' | e]; [| reflexivity].
    destruct (track_totaltime_backend q' b1) as (q & Hq' & Hsame).
    rewrite Hq', (Hsame ltac:(rewrite Hflag1; apply andb_false_r)).
    reflexivity.
  - intros q. unfold explain_ExecutorEnd. rewrite Hflag1, andb_false_r.
    destruct (totaltime q); reflexivity.
Qed.

End NotReported.

(** ** The sampling test is a threshold on the draw *)

(** The integers [random()] returns, as doubles. *)
Lemma double_of_Z_random (r : Z) :
  0 <= r <= 2147483647 ->
  r = 0 /\ double_of_Z r = S754_zero false
  \/ exists p k : positive,
       r = Zpos p
       /\ Zneg k = Zpos (digits2_pos p) - 53
       /\ double_of_Z r = S754_finite false (Pos.iter xO p k) (Zneg k).
Proof.
  intros Hr. destruct r as [| p | p]; [left; split; reflexivity | | lia].
  right.
  assert (Hd : Zpos (digits2_pos p) <= 31).
  { apply digits2_pos_bound; [lia |]. change (2 ^ 31) with 2147483648. lia. }
  destruct (double_of_Z_pos p ltac:(lia)) as (k & Hk & Hp).
  exists p, k. repeat split; assumption.
Qed.

Lemma digits2_pos_lower (p : positive) :
  2 ^ Zpos (digits2_pos p) <= 2 * Zpos p.
Proof.
  rewrite digits2_pos_size.
  pose proof (Pos.size_le p) as Hsize.
  apply Pos2Z.pos_le_pos in Hsize. rewrite Pos2Z.inj_pow in Hsize.
  exact Hsize.
Qed.

Lemma digits2_pos_upper (p : positive) :
  Zpos p < 2 ^ Zpos (digits2_pos p).
Proof.
  rewrite digits2_pos_size.
  pose proof (Pos.size_gt p) as Hsize.
  apply Pos2Z.pos_lt_pos in Hsize. rewrite Pos2Z.inj_pow in Hsize.
  exact Hsize.
Qed.

Lemma digits2_pos_mono (p q : positive) :
  (p <= q)%positive -> Zpos (digits2_pos p) <= Zpos (digits2_pos q).
Proof.
  intros Hpq.
  destruct (Z.le_gt_cases (Zpos (digits2_pos p)) (Zpos (digits2_pos q)))
    as [Hle | Hgt]; [exact Hle | exfalso].
  pose proof (digits2_pos_lower p) as Hp.
  pose proof (digits2_pos_upper q) as Hq.
  assert (Hpow : 2 ^ Z.succ (Zpos (digits2_pos q)) <= 2 ^ Zpos (digits2_pos p))
    by (apply Z.pow_le_mono_r; lia).
  rewrite Z.pow_succ_r in Hpow by lia. lia.
Qed.

(** [double_lt] on positive finite doubles, as an order on exponent and
    mantissa. *)
Lemma double_lt_finite_iff (m1 m2 : positive) (e1 e2 : Z) :
  double_lt (S754_finite false m1 e1) (S754_finite false m2 e2) = true
  <-> e1 < e2 \/ (e1 = e2 /\ (m1 < m2)%positive).
Proof.
  rewrite double_lt_finite.
  destruct (Z.compare_spec e1 e2) as [He | He | He].
  - destruct (Pos.compare_spec m1 m2) as [Hm | Hm | Hm]; split;
      try discriminate; try (intros _; right; split; assumption);
      try reflexivity; intros [Hlt | [_ Hlt]]; lia.
  - split; [intros _; left; exact He | reflexivity].
  - split; [discriminate | intros [Hlt | [Heq _]]; lia].
Qed.

Section Threshold.
Context `{host : Host}.

(** X16. If a value of [random()] passes the sampling test, so does every
    smaller one: for each rate the sampled values are an initial segment of
    the generator's range. *)
Theorem sampling_is_a_threshold (r r' : Z) (rate : double) :
  0 <= r' <= r ->
  r <= 2147483647 ->
  sample_test r rate = true ->
  sample_test r' rate = true.
Proof.
  intros Hr' Hr. unfold sample_test.
  generalize (double_mul rate (double_of_Z MAX_RANDOM_VALUE)). intros c.
  destruct (double_of_Z_random r ltac:(lia))
    as [[-> ->] | (p & k & -> & Hk & ->)].
  - assert (r' = 0) as -> by lia. intros Hlt. exact Hlt.
  - destruct (double_of_Z_random r' ltac:(lia))
      as [[-> ->] | (p' & k' & -> & Hk' & ->)].
    + destruct c as [sc | sc | | sc mc ec]; cbn; try discriminate;
        destruct sc; try discriminate; reflexivity.
    + assert (Hd : Zpos (digits2_pos p') <= Zpos (digits2_pos p))
        by (apply digits2_pos_mono; lia).
      destruct c as [sc | sc | | sc mc ec]; try (cbn; discriminate).
      * destruct sc; cbn; [discriminate | reflexivity].
      * destruct sc; [cbn; discriminate |].
        rewrite !double_lt_finite_iff.
        intros [Hlt | [Heq Hlt]].
        -- left. lia.
        -- destruct (Z.eq_dec (Zneg k') (Zneg k)) as [Hkk | Hkk];
             [| left; lia].
           right. split; [lia |].
           injection Hkk as ->.
           assert (Hle : (Pos.iter xO p' k <= Pos.iter xO p k)%positive).
           { unfold Pos.le. rewrite compare_iter_xO. fold (Pos.le p' p). lia. }
           lia.
Qed.

End Threshold.

(** ** The further properties on the concrete hosts *)

Lemma start_instrument_options_witness :
  instrument_options
    (@delegated_queryDesc pg_instr (demo_host 5) demo_query 0 analyze_backend)
  = 3.
Proof.
  destruct (@start_instrument_options pg_instr (demo_host 5) demo_query 0
              analyze_backend)
    as (_ & _ & _ & _ & Hopts).
  apply Hopts; reflexivity.
Defined.

Lemma start_error_passes_through_witness :
  demo_ExecutorStart 5 demo_query 0
    (demo_backend (demo_guc 0 false false EXPLAIN_FORMAT_TEXT double_one)
       0 false (Some (extern_fn 2)))
  = (Raised demo_error,
     set_random_calls 1%nat
       (demo_backend (demo_guc 0 false false EXPLAIN_FORMAT_TEXT double_one)
          0 true (Some (extern_fn 2)))).
Proof.
  apply (@start_error_passes_through pg_instr (demo_host 5)).
  reflexivity.
Defined.

Lemma start_totaltime_allocated_witness :
  exists q1 b1,
    demo_ExecutorStart 5 demo_query 0 analyze_backend = (Normal q1, b1)
    /\ totaltime q1 <> None.
Proof.
  destruct (demo_ExecutorStart 5 demo_query 0 analyze_backend)
    as [[q1 | e] b1] eqn:Hstart; [| discriminate Hstart].
  exists q1, b1. split; [reflexivity |].
  destruct (@start_totaltime_allocated pg_instr (demo_host 5) demo_query q1 0
              analyze_backend b1 Hstart)
    as (q' & _ & _ & _ & _ & Hsome & _).
  apply Hsome.
  unfold demo_ExecutorStart in Hstart. injection Hstart as _ <-. reflexivity.
Defined.

Lemma started_statement_reaches_duration_test_witness :
  exists q1 b1 t,
    demo_ExecutorStart 5 demo_query 0 analyze_backend = (Normal q1, b1)
    /\ totaltime q1 = Some t
    /\ demo_ExecutorEnd 5 q1 b1
       = @report_if_slow pg_instr (demo_host 5) q1 t b1.
Proof.
  destruct (demo_ExecutorStart 5 demo_query 0 analyze_backend)
    as [[q1 | e] b1] eqn:Hstart; [| discriminate Hstart].
  assert (Hon : auto_explain_enabled b1 && current_query_sampled b1 = true)
    by (unfold demo_ExecutorStart in Hstart; injection Hstart as _ <-;
        reflexivity).
  destruct (@started_statement_reaches_duration_test pg_instr (demo_host 5)
              demo_query q1 0 analyze_backend b1 Hstart Hon)
    as (t & Ht & Hend).
  exists q1, b1, t. split; [reflexivity |]. split; [exact Ht |].
  apply Hend. exact Hon.
Defined.

Lemma disabled_module_is_transparent_witness :
  demo_ExecutorStart 5 demo_query 0 loaded_backend
  = (Normal started_query, loaded_backend)
  /\ demo_ExecutorEnd 5 started_query loaded_backend
     = Some (Normal started_query, loaded_backend).
Proof.
  destruct (@disabled_module_is_transparent pg_instr (demo_host 5)
              demo_query 0 loaded_backend)
    as (_ & Hstart & _); [cbn; lia |].
  destruct (@disabled_module_is_transparent pg_instr (demo_host 5)
              started_query 0 loaded_backend)
    as (_ & _ & Hend); [cbn; lia |].
  split; [| exact Hend].
  apply Hstart; [reflexivity | cbn; lia].
Defined.

Lemma instrumented_statement_reports_analyze_witness :
  analyze
    (@explain_options pg_instr (settings analyze_backend)
       (@delegated_queryDesc pg_instr (demo_host 5) demo_query 0
          analyze_backend)
       (@NewExplainState pg_instr (demo_host 5)))
  = true.
Proof.
  pose proof (@instrumented_statement_reports_analyze pg_instr (demo_host 5)
                demo_query 0 analyze_backend
                ltac:(cbn; discriminate) ltac:(cbn; discriminate)
                eq_refl eq_refl eq_refl) as Hrep.
  cbv zeta in Hrep. destruct Hrep as [_ Hany].
  apply Hany. reflexivity.
Defined.

Lemma zero_min_duration_logs_all_witness :
  demo_ExecutorEnd 5 (timed_query (S754_zero false))
    (demo_backend (demo_guc 0 false false EXPLAIN_FORMAT_TEXT double_one)
       0 true None)
  = Some (Normal (timed_query (S754_zero false)),
          set_server_log
            [mkLog (S754_zero false)
               (list_ascii_of_string "Query Text: select 1"
                  ++ newline :: list_ascii_of_string "Result")
               true]
            (demo_backend
               (demo_guc 0 false false EXPLAIN_FORMAT_TEXT double_one)
               0 true None)).
Proof.
  exact (@zero_min_duration_logs_all pg_instr (demo_host 5)
           (timed_query (S754_zero false)) (S754_zero false)
           (demo_backend
              (demo_guc 0 false false EXPLAIN_FORMAT_TEXT double_one)
              0 true None)
           (demo_backend
              (demo_guc 0 false false EXPLAIN_FORMAT_TEXT double_one)
              0 true None)
           (mkExplainState
              (list_ascii_of_string "Query Text: select 1"
                 ++ newline :: list_ascii_of_string "Result" ++ [newline])
              false false false false false EXPLAIN_FORMAT_TEXT)
           (list_ascii_of_string "Query Text: select 1"
              ++ newline :: list_ascii_of_string "Result")
           eq_refl eq_refl eq_refl eq_refl eq_refl eq_refl).
Defined.

Lemma end_fault_iff_empty_json_witness :
  @explain_ExecutorEnd pg_instr silent_host (timed_query seconds_0_1)
    (demo_backend (demo_guc 0 false false EXPLAIN_FORMAT_JSON double_one)
       0 true None)
  = None.
Proof.
  apply (@end_fault_iff_empty_json pg_instr silent_host).
  exists seconds_0_1,
    (mkExplainState [] false false false false false EXPLAIN_FORMAT_JSON),
    (demo_backend (demo_guc 0 false false EXPLAIN_FORMAT_JSON double_one)
       0 true None).
  repeat split; try reflexivity. left. reflexivity.
Defined.

Lemma render_error_skips_log_and_delegate_witness :
  @explain_ExecutorEnd pg_instr failing_render_host (timed_query seconds_0_1)
    (demo_backend (demo_guc 0 false false EXPLAIN_FORMAT_TEXT double_one)
       0 true None)
  = Some (Raised demo_error,
          demo_backend (demo_guc 0 false false EXPLAIN_FORMAT_TEXT double_one)
            0 true None).
Proof.
  apply (@render_error_skips_log_and_delegate pg_instr failing_render_host
           (timed_query seconds_0_1) seconds_0_1);
    reflexivity.
Defined.

Lemma plain_report_text_witness :
  demo_ExecutorEnd 5 (timed_query seconds_0_1)
    (demo_backend (demo_guc 0 false false EXPLAIN_FORMAT_YAML double_one)
       0 true None)
  = Some (Normal (timed_query seconds_0_1),
          set_server_log
            [mkLog double_100
               (list_ascii_of_string "Query Text: select 1"
                  ++ newline :: list_ascii_of_string "Result")
               true]
            (demo_backend
               (demo_guc 0 false false EXPLAIN_FORMAT_YAML double_one)
               0 true None)).
Proof.
  edestruct (@plain_report_text pg_instr (demo_host 5)
               (timed_query seconds_0_1) seconds_0_1
               (demo_backend
                  (demo_guc 0 false false EXPLAIN_FORMAT_YAML double_one)
                  0 true None))
    as (Hend & _);
    [reflexivity | reflexivity | reflexivity | reflexivity | | exact Hend].
  cbn. discriminate.
Defined.

Lemma fix_json_cases_witness :
  fix_json (list_ascii_of_string "[1]") = Some (list_ascii_of_string "{1}")
  /\ length (list_ascii_of_string "{1}") = 3%nat.
Proof.
  destruct fix_json_cases as (_ & _ & Hends & Hany).
  split; [apply (Hends "["%char ["1"%char] "]"%char) |].
  apply (Hany (list_ascii_of_string "[1]") (list_ascii_of_string "{1}")).
  reflexivity.
Defined.

Lemma triggers_only_with_analyze_witness :
  @render_plan pg_instr trigger_host (timed_query seconds_0_1)
    (demo_backend (demo_guc 0 false false EXPLAIN_FORMAT_TEXT double_one)
       0 true None)
  = demo_render_plan 5 (timed_query seconds_0_1)
      (demo_backend (demo_guc 0 false false EXPLAIN_FORMAT_TEXT double_one)
         0 true None).
Proof.
  apply (@triggers_only_with_analyze pg_instr (demo_host 5)).
  reflexivity.
Defined.

Lemma short_statement_not_logged_witness :
  demo_ExecutorEnd 5 (timed_query seconds_0_099999)
    (demo_backend (demo_guc 100 false false EXPLAIN_FORMAT_TEXT double_one)
       0 true None)
  = Some (Normal (timed_query seconds_0_099999),
          demo_backend
            (demo_guc 100 false false EXPLAIN_FORMAT_TEXT double_one)
            0 true None).
Proof.
  apply (@short_statement_not_logged pg_instr (demo_host 5)
           (timed_query seconds_0_099999) seconds_0_099999);
    [reflexivity | reflexivity | left; reflexivity].
Defined.

Lemma unsampled_statement_is_untouched_witness :
  demo_ExecutorStart 5 demo_query 0
    (demo_backend (demo_guc 0 true true EXPLAIN_FORMAT_TEXT double_one)
       1 false None)
  = (Normal demo_query,
     demo_backend (demo_guc 0 true true EXPLAIN_FORMAT_TEXT double_one)
       1 false None)
  /\ demo_ExecutorEnd 5 (timed_query seconds_0_1)
       (demo_backend (demo_guc 0 true true EXPLAIN_FORMAT_TEXT double_one)
          1 false None)
     = Some (Normal (timed_query seconds_0_1),
             demo_backend (demo_guc 0 true true EXPLAIN_FORMAT_TEXT double_one)
               1 false None).
Proof.
  destruct (@unsampled_statement_is_untouched pg_instr (demo_host 5)
              demo_query 0
              (demo_backend
                 (demo_guc 0 true true EXPLAIN_FORMAT_TEXT double_one)
                 1 false None))
    as (_ & Hrest); [reflexivity |].
  edestruct Hrest as (Hstart & Hend); [reflexivity | reflexivity |].
  split; [exact Hstart | apply Hend].
Defined.

Lemma sampling_is_a_threshold_witness :
  @sample_test pg_instr (demo_host 5) 1073741823 half_rate = true
  /\ @sample_test pg_instr (demo_host 5) 7 half_rate = true.
Proof.
  assert (Hbig : @sample_test pg_instr (demo_host 5) 1073741823 half_rate
                 = true)
    by (vm_compute; reflexivity).
  split; [exact Hbig |].
  apply (@sampling_is_a_threshold pg_instr (demo_host 5) 1073741823 7);
    [lia | lia | exact Hbig].
Defined.

Lemma loaded_handlers_chain_to_previous_witness :
  demo_ExecutorEnd 5 demo_query
    (demo_PG_init 5 (backend_boot None None None (Some (extern_fn 2))))
  = Some (Raised demo_error,
          demo_PG_init 5 (backend_boot None None None (Some (extern_fn 2))))
  /\ demo_ExecutorEnd 5 (timed_query seconds_0_1)
       (set_log_min_duration 0
          (demo_PG_init 5 (backend_boot None None None (Some (extern_fn 1)))))
     = Some (Normal (timed_query seconds_0_1),
             set_server_log
               [mkLog double_100
                  (list_ascii_of_string "Query Text: select 1"
                     ++ newline :: list_ascii_of_string "Result")
                  true]
               (set_log_min_duration 0
                  (demo_PG_init 5
                     (backend_boot None None None (Some (extern_fn 1)))))).
Proof.
  split.
  - pose proof (@loaded_handlers_chain_to_previous pg_instr (demo_host 5)
                  demo_query 0 ForwardScanDirection 0 true
                  (backend_boot None None None (Some (extern_fn 2))))
      as Hchain.
    cbv zeta in Hchain. destruct Hchain as (_ & _ & _ & _ & Hskip & _).
    apply Hskip. left. reflexivity.
  - pose proof (@loaded_handlers_chain_to_previous pg_instr (demo_host 5)
                  (timed_query seconds_0_1) 0 ForwardScanDirection 0 true
                  (set_log_min_duration 0
                     (backend_boot None None None (Some (extern_fn 1)))))
      as Hchain.
    cbv zeta in Hchain. destruct Hchain as (_ & _ & _ & _ & _ & Hreport).
    destruct (Hreport seconds_0_1 eq_refl eq_refl) as [_ Hlogged].
    exact (Hlogged
             (mkExplainState
                (list_ascii_of_string "Query Text: select 1"
                   ++ newline :: list_ascii_of_string "Result" ++ [newline])
                false false false false false EXPLAIN_FORMAT_TEXT)
             (set_log_min_duration 0
                (demo_PG_init 5
                   (backend_boot None None None (Some (extern_fn 1)))))
             (list_ascii_of_string "Query Text: select 1"
                ++ newline :: list_ascii_of_string "Result")
             eq_refl eq_refl eq_refl eq_refl).
Defined.
